(** * juven0/e-commerce: a shallow embedding of the service code

    The repository holds two subsystems: an ingestion pipeline
    ([backend/app/ingest]) and an e-commerce API ([ecommerce-api/app]).
    This development embeds the functions that the specification's
    properties talk about and proves (or refutes) those properties.

    Conventions.
    - Python [int] is [Z]; [str] is [string]; [Optional[T]] is [option T].
    - Python [float] and [Decimal] values are read as the rational numbers
      they denote ([Q]); rounding is not modelled, and the properties below
      only use the order structure and the field laws.
    - An exception is a value of [Exception]; code that can raise returns
      [Exception + A] ([inl] is a raise), and code that also touches the
      database is a function from the database to such a result paired
      with the database it leaves behind.
    - [datetime.utcnow()] is a parameter [now] (seconds since the epoch).
    - Tables looked up by primary key are [gmap Z row]; tables that are
      filtered on other columns are lists of rows in insertion order. *)

From Stdlib Require Import ZArith QArith Qminmax Ascii String Lia.
From stdpp Require Import base option list gmap strings pretty.

Open Scope string_scope.
Open Scope Z_scope.

(** ** Python basics *)

Module Py.

(** The exceptions that the embedded code raises. [HTTPException] carries
    the FastAPI status code and the [detail] message. *)
Inductive Exception :=
| HTTPException (status_code : Z) (detail : string)
| AttributeError (attr : string)
| TypeError
| MultipleResultsFound
| StatementError
| JWTError.

Definition HTTP_400_BAD_REQUEST : Z := 400.
Definition HTTP_401_UNAUTHORIZED : Z := 401.
Definition HTTP_403_FORBIDDEN : Z := 403.
Definition HTTP_404_NOT_FOUND : Z := 404.

(** Code that may raise. *)
Definition Result (A : Type) : Type := Exception + A.

Definition ret {A} (a : A) : Result A := inr a.
Definition raise {A} (e : Exception) : Result A := inl e.
Definition bind {A B} (m : Result A) (k : A -> Result B) : Result B :=
  match m with
  | inl e => inl e
  | inr a => k a
  end.

(** [s.endswith(ext)] *)
Fixpoint endswith (s ext : string) : bool :=
  if String.eqb s ext then true
  else match s with
       | EmptyString => false
       | String _ s' => endswith s' ext
       end.

(** [s] is [ext] with something in front of it. *)
Definition has_suffix (s ext : string) : Prop :=
  exists pre, s = pre +:+ ext.

(** [sub in s] *)
Fixpoint contains (s sub : string) : bool :=
  if String.prefix sub s then true
  else match s with
       | EmptyString => false
       | String _ s' => contains s' sub
       end.

(** [sep.join(parts)] *)
Fixpoint join (sep : string) (parts : list string) : string :=
  match parts with
  | [] => EmptyString
  | [p] => p
  | p :: ps => p +:+ sep +:+ join sep ps
  end.

(** [result.scalar_one_or_none()] of SQLAlchemy. *)
Definition scalar_one_or_none {A} (rows : list A) : Result (option A) :=
  match rows with
  | [] => inr None
  | [r] => inr (Some r)
  | _ => inl MultipleResultsFound
  end.

End Py.
Import Py.

(** ** [app/core/security.py]: signed tokens *)

Module Security.

(** A claim value: a string, or a point in time. *)
Inductive Claim :=
| CStr (s : string)
| CTime (t : Z).

#[global] Instance Claim_eq_dec : EqDecision Claim.
Proof. solve_decision. Defined.

Record Settings := {
  SECRET_KEY : string;
  ALGORITHM : string;
  ACCESS_TOKEN_EXPIRE_MINUTES : Z;
  REFRESH_TOKEN_EXPIRE_DAYS : Z
}.

(** [jose.jwt] is an external library. A token is modelled by what it
    commits to: the claims, and the key and algorithm that signed it.
    Decoding checks the signature and the expiry claim and gives the
    claims back. *)
Record JWT := {
  jwt_claims : gmap string Claim;
  jwt_key : string;
  jwt_alg : string
}.

Definition jwt_encode (claims : gmap string Claim) (key alg : string) : JWT :=
  {| jwt_claims := claims; jwt_key := key; jwt_alg := alg |}.

Definition jwt_expired (now : Z) (claims : gmap string Claim) : bool :=
  match claims !! "exp" with
  | Some (CTime t) => t <? now
  | Some (CStr _) => true
  | None => false
  end.

Definition jwt_decode (now : Z) (token : JWT) (key : string)
    (algorithms : list string) : Result (gmap string Claim) :=
  if bool_decide (jwt_key token = key)
     && bool_decide (jwt_alg token ∈ algorithms)
     && negb (jwt_expired now (jwt_claims token))
  then ret (jwt_claims token)
  else raise JWTError.

(** A [timedelta] is a number of seconds; [if expires_delta:] is false
    for [None] and for the zero duration. *)
Definition timedelta_truthy (d : option Z) : option Z :=
  match d with
  | Some s => if s =? 0 then None else Some s
  | None => None
  end.

Definition create_access_token (settings : Settings) (now : Z)
    (data : gmap string Claim) (expires_delta : option Z) : JWT :=
  let to_encode := data in
  let expire :=
    match timedelta_truthy expires_delta with
    | Some d => now + d
    | None => now + ACCESS_TOKEN_EXPIRE_MINUTES settings * 60
    end in
  let to_encode :=
    <["type" := CStr "access"]>
      (<["iat" := CTime now]> (<["exp" := CTime expire]> to_encode)) in
  jwt_encode to_encode (SECRET_KEY settings) (ALGORITHM settings).

Definition create_refresh_token (settings : Settings) (now : Z)
    (data : gmap string Claim) (expires_delta : option Z) : JWT :=
  let to_encode := data in
  let expire :=
    match timedelta_truthy expires_delta with
    | Some d => now + d
    | None => now + REFRESH_TOKEN_EXPIRE_DAYS settings * 86400
    end in
  let to_encode :=
    <["type" := CStr "refresh"]>
      (<["iat" := CTime now]> (<["exp" := CTime expire]> to_encode)) in
  jwt_encode to_encode (SECRET_KEY settings) (ALGORITHM settings).

Definition decode_token (settings : Settings) (now : Z) (token : JWT)
    : Result (gmap string Claim) :=
  match jwt_decode now token (SECRET_KEY settings) [ALGORITHM settings] with
  | inr payload => ret payload
  | inl _ => raise (HTTPException HTTP_401_UNAUTHORIZED "Token invalide ou expiré")
  end.

Definition create_email_verification_token (settings : Settings) (now : Z)
    (email : string) : JWT :=
  let data : gmap string Claim :=
    <["type" := CStr "email_verification"]> {["sub" := CStr email]} in
  let expires := 24 * 3600 in
  create_access_token settings now data (Some expires).

Definition create_password_reset_token (settings : Settings) (now : Z)
    (email : string) : JWT :=
  let data : gmap string Claim :=
    <["type" := CStr "password_reset"]> {["sub" := CStr email]} in
  let expires := 1 * 3600 in
  create_access_token settings now data (Some expires).

End Security.

(** ** [app/models]: the rows of the tables

    Only the columns that the embedded code reads or writes are kept.
    A row of a table that is a [gmap] does not repeat its primary key. *)

Module Product.
Record t := {
  name : string;
  stock : Z;
  is_active : bool
}.
Definition set_stock (quantity : Z) (p : t) : t :=
  {| name := name p; stock := quantity; is_active := is_active p |}.

(** The product with [quantity] more in stock. *)
Definition add_stock (quantity : Z) (p : t) : t :=
  set_stock (stock p + quantity) p.
End Product.

Module CartItem.
Record t := {
  id : Z;
  cart_id : Z;
  product_id : Z;
  quantity : Z;
  price : Q
}.
Definition set_quantity (q : Z) (i : t) : t :=
  {| id := id i; cart_id := cart_id i; product_id := product_id i;
     quantity := q; price := price i |}.

(** [float(self.price) * self.quantity] *)
Definition subtotal (i : t) : Q := (price i * inject_Z (quantity i))%Q.
End CartItem.

Module Cart.
Record t := {
  id : Z;
  user_id : Z
}.

(** A cart as the session hands it out, with its [items] relationship
    loaded. *)
Record loaded := {
  row : t;
  items : list CartItem.t
}.

(** [sum(...)] starts from the integer 0 and adds from the left. *)
Definition py_sum (l : list Q) : Q := fold_left Qplus l 0%Q.

Definition subtotal (c : loaded) : Q :=
  match items c with
  | [] => 0%Q
  | its => py_sum (map CartItem.subtotal its)
  end.

Definition total_items (c : loaded) : Z :=
  match items c with
  | [] => 0
  | its => fold_left Z.add (map CartItem.quantity its) 0
  end.

(** [len(self.items) == 0 if self.items else True] *)
Definition is_empty (c : loaded) : bool :=
  match items c with
  | [] => true
  | its => (length its =? 0)%nat
  end.
End Cart.

Module OrderStatus.
Inductive t := PENDING | PAID | SHIPPED | DELIVERED | CANCELLED | REFUNDED.
#[global] Instance eq_dec : EqDecision t.
Proof. solve_decision. Defined.
End OrderStatus.

Module OrderItem.
Record t := {
  id : Z;
  order_id : Z;
  product_id : Z;
  quantity : Z;
  unit_price : Q
}.
End OrderItem.

Module Order.
Import OrderStatus.
Record t := {
  user_id : Z;
  status : OrderStatus.t;
  total_amount : Q;
  billing_address_id : option Z;
  shipping_address_id : option Z
}.
Definition set_status (s : OrderStatus.t) (o : t) : t :=
  {| user_id := user_id o; status := s; total_amount := total_amount o;
     billing_address_id := billing_address_id o;
     shipping_address_id := shipping_address_id o |}.

(** An order with its [items] relationship loaded. *)
Record loaded := {
  id : Z;
  row : t;
  items : list OrderItem.t
}.

Definition is_paid (o : t) : bool :=
  bool_decide (status o ∈ [PAID; SHIPPED; DELIVERED]).

Definition can_be_cancelled (o : t) : bool :=
  bool_decide (status o ∈ [PENDING; PAID]).
End Order.

Module PaymentStatus.
Inductive t := PENDING | SUCCESS | FAILED | REFUNDED.
#[global] Instance eq_dec : EqDecision t.
Proof. solve_decision. Defined.
End PaymentStatus.

Module Payment.
Record t := {
  order_id : Z;
  status : PaymentStatus.t;
  amount : Q;
  transaction_reference : option string;
  paid_at : option Z
}.
Definition can_be_refunded (p : t) : bool :=
  bool_decide (status p = PaymentStatus.SUCCESS).
End Payment.

Module Coupon.
Inductive DiscountType := PERCENTAGE | FIXED.
#[global] Instance DiscountType_eq_dec : EqDecision DiscountType.
Proof. solve_decision. Defined.

Record t := {
  code : string;
  discount_type : DiscountType;
  discount_value : Q;
  min_order_amount : option Q;
  expires_at : option Z;
  is_active : bool
}.

Definition is_expired (now : Z) (c : t) : bool :=
  match expires_at c with
  | None => false
  | Some e => e <? now
  end.

Definition is_valid (now : Z) (c : t) : bool :=
  is_active c && negb (is_expired now c).

Definition is_percentage (c : t) : bool :=
  bool_decide (discount_type c = PERCENTAGE).

Definition is_fixed (c : t) : bool :=
  bool_decide (discount_type c = FIXED).

(** [x < y] on numbers. *)
Definition Qltb (x y : Q) : bool := negb (Qle_bool y x).

(** [if self.min_order_amount and order_amount < float(...)]: a missing
    minimum and a minimum equal to zero are both false. *)
Definition below_minimum (c : t) (order_amount : Q) : bool :=
  match min_order_amount c with
  | None => false
  | Some m => negb (Qeq_bool m 0) && Qltb order_amount m
  end.

Definition calculate_discount (now : Z) (c : t) (order_amount : Q) : Q :=
  if negb (is_valid now c) then 0%Q
  else if below_minimum c order_amount then 0%Q
  else if is_percentage c then
    let discount := (order_amount * (discount_value c / 100))%Q in
    Qmin discount order_amount
  else
    Qmin (discount_value c) order_amount.

(** The coupon is inactive or its expiry date has passed. *)
Definition invalid (now : Z) (c : t) : Prop :=
  is_active c = false \/ exists e, expires_at c = Some e /\ e < now.

(** The coupon has a minimum order amount and the amount is under it. *)
Definition below (c : t) (amount : Q) : Prop :=
  exists m, min_order_amount c = Some m /\ (amount < m)%Q.

End Coupon.

(** ** The database and the code that runs against it *)

Module Db.

Record t := {
  products : gmap Z Product.t;
  carts : list Cart.t;
  cart_items : list CartItem.t;
  cart_items_seq : Z;
  orders : gmap Z Order.t;
  orders_seq : Z;
  order_items : list OrderItem.t;
  order_items_seq : Z;
  payments : gmap Z Payment.t;
  coupons : list Coupon.t
}.

Definition with_products (f : gmap Z Product.t -> gmap Z Product.t) (db : t) : t :=
  {| products := f (products db); carts := carts db;
     cart_items := cart_items db; cart_items_seq := cart_items_seq db;
     orders := orders db; orders_seq := orders_seq db;
     order_items := order_items db; order_items_seq := order_items_seq db;
     payments := payments db; coupons := coupons db |}.

Definition with_cart_items (f : list CartItem.t -> list CartItem.t)
    (seq : Z) (db : t) : t :=
  {| products := products db; carts := carts db;
     cart_items := f (cart_items db); cart_items_seq := seq;
     orders := orders db; orders_seq := orders_seq db;
     order_items := order_items db; order_items_seq := order_items_seq db;
     payments := payments db; coupons := coupons db |}.

Definition with_orders (f : gmap Z Order.t -> gmap Z Order.t) (seq : Z) (db : t) : t :=
  {| products := products db; carts := carts db;
     cart_items := cart_items db; cart_items_seq := cart_items_seq db;
     orders := f (orders db); orders_seq := seq;
     order_items := order_items db; order_items_seq := order_items_seq db;
     payments := payments db; coupons := coupons db |}.

Definition with_order_items (f : list OrderItem.t -> list OrderItem.t)
    (seq : Z) (db : t) : t :=
  {| products := products db; carts := carts db;
     cart_items := cart_items db; cart_items_seq := cart_items_seq db;
     orders := orders db; orders_seq := orders_seq db;
     order_items := f (order_items db); order_items_seq := seq;
     payments := payments db; coupons := coupons db |}.

Definition with_payments (f : gmap Z Payment.t -> gmap Z Payment.t) (db : t) : t :=
  {| products := products db; carts := carts db;
     cart_items := cart_items db; cart_items_seq := cart_items_seq db;
     orders := orders db; orders_seq := orders_seq db;
     order_items := order_items db; order_items_seq := order_items_seq db;
     payments := f (payments db); coupons := coupons db |}.

(** Code that runs in a session: it may raise, and it leaves a database
    behind either way (what was flushed before a raise stays flushed; the
    rollback belongs to the caller of the service). *)
Definition M (A : Type) : Type := t -> Result A * t.

Definition ret {A} (a : A) : M A := fun db => (inr a, db).
Definition raise {A} (e : Exception) : M A := fun db => (inl e, db).
Definition bind {A B} (m : M A) (k : A -> M B) : M B :=
  fun db =>
    match m db with
    | (inl e, db') => (inl e, db')
    | (inr a, db') => k a db'
    end.
Definition lift {A} (r : Result A) : M A := fun db => (r, db).
Definition query {A} (f : t -> A) : M A := fun db => (inr (f db), db).
Definition execute (f : t -> t) : M unit := fun db => (inr tt, f db).

(** [for x in xs: body(x)] *)
Fixpoint for_each {A} (xs : list A) (body : A -> M unit) : M unit :=
  match xs with
  | [] => ret tt
  | x :: xs' => bind (body x) (fun _ => for_each xs' body)
  end.

End Db.

Declare Scope db_scope.
Delimit Scope db_scope with db.
Notation "'let*' x ':=' m 'in' k" := (Db.bind m (fun x => k))
  (at level 10, x name, m at level 200, k at level 200) : db_scope.
Notation "'run' m 'in' k" := (Db.bind m (fun _ => k))
  (at level 10, m at level 200, k at level 200) : db_scope.
Open Scope db_scope.

(** ** [app/repositories] *)

Module ProductRepository.
Import Db.

Definition get_by_id (id : Z) : M (option Product.t) :=
  query (fun db => products db !! id).

(** [BaseRepository.update(product_id, {"stock": quantity})]: the
    value is an integer, so the update is never filtered away. *)
Definition update_stock (product_id quantity : Z) : M (option Product.t) :=
  run execute (with_products (alter (Product.set_stock quantity) product_id)) in
  get_by_id product_id.

Definition decrease_stock (product_id quantity : Z) : M (option Product.t) :=
  let* product := get_by_id product_id in
  match product with
  | None => ret None
  | Some product =>
      let new_stock := Z.max 0 (Product.stock product - quantity) in
      update_stock product_id new_stock
  end.

Definition increase_stock (product_id quantity : Z) : M (option Product.t) :=
  let* product := get_by_id product_id in
  match product with
  | None => ret None
  | Some product =>
      let new_stock := Product.stock product + quantity in
      update_stock product_id new_stock
  end.
End ProductRepository.

Module CartRepository.
Import Db.

Definition items_of (cart_id : Z) (db : t) : list CartItem.t :=
  filter (fun i => CartItem.cart_id i = cart_id) (cart_items db).

Definition get_by_user_id (user_id : Z) : M (option Cart.loaded) :=
  let* rows := query (fun db => filter (fun c => Cart.user_id c = user_id) (carts db)) in
  let* cart := lift (scalar_one_or_none rows) in
  match cart with
  | None => ret None
  | Some c =>
      let* its := query (items_of (Cart.id c)) in
      ret (Some {| Cart.row := c; Cart.items := its |})
  end.

Definition clear (cart_id : Z) : M bool :=
  run execute (fun db =>
    with_cart_items (filter (fun i => CartItem.cart_id i ≠ cart_id))
      (cart_items_seq db) db) in
  ret true.
End CartRepository.

Module CartItemRepository.
Import Db.

Definition get_by_id (id : Z) : M (option CartItem.t) :=
  let* rows := query (fun db => filter (fun i => CartItem.id i = id) (cart_items db)) in
  lift (scalar_one_or_none rows).

Definition get_by_cart_and_product (cart_id product_id : Z)
    : M (option CartItem.t) :=
  let* rows := query (fun db =>
    filter (fun i => CartItem.cart_id i = cart_id
                     ∧ CartItem.product_id i = product_id) (cart_items db)) in
  lift (scalar_one_or_none rows).

(** [UPDATE cart_items SET quantity = q WHERE id = item_id], on one row. *)
Definition upd (item_id quantity : Z) (i : CartItem.t) : CartItem.t :=
  if decide (CartItem.id i = item_id) then CartItem.set_quantity quantity i else i.

(** [BaseRepository.update(id, {"quantity": q})] *)
Definition update_quantity (item_id quantity : Z) : M (option CartItem.t) :=
  run execute (fun db =>
    with_cart_items (fmap (upd item_id quantity)) (cart_items_seq db) db) in
  get_by_id item_id.

(** [BaseRepository.create]: the row takes the next value of the
    table's sequence. *)
Definition create (cart_id product_id quantity : Z) (price : Q) : M CartItem.t :=
  let* id := query cart_items_seq in
  let db_obj := {| CartItem.id := id; CartItem.cart_id := cart_id;
                   CartItem.product_id := product_id;
                   CartItem.quantity := quantity;
                   CartItem.price := price |} in
  run execute (with_cart_items (fun rows => (rows ++ [db_obj])%list) (id + 1)) in
  ret db_obj.

Definition add_item (cart_id product_id quantity : Z) (price : Q)
    : M (option CartItem.t) :=
  let* existing_item := get_by_cart_and_product cart_id product_id in
  match existing_item with
  | Some existing_item =>
      let new_quantity := CartItem.quantity existing_item + quantity in
      update_quantity (CartItem.id existing_item) new_quantity
  | None =>
      let* item := create cart_id product_id quantity price in
      ret (Some item)
  end.

(** What the table's constraints and its sequence guarantee: primary keys
    are unique and below the next sequence value. *)
Definition primary_key_ok (db : Db.t) : Prop :=
  NoDup (CartItem.id <$> cart_items db)
  /\ Forall (fun i => CartItem.id i < cart_items_seq db) (cart_items db).

(** The cart and the product of a line. *)
Definition key (i : CartItem.t) : Z * Z :=
  (CartItem.cart_id i, CartItem.product_id i).

(** No cart holds two lines for the same product. *)
Definition one_line_per_product (db : Db.t) : Prop :=
  NoDup (key <$> cart_items db).

(** The lines of a cart for a product. *)
Definition lines (cart_id product_id : Z) (db : Db.t) : list CartItem.t :=
  filter (fun i => CartItem.cart_id i = cart_id
                   /\ CartItem.product_id i = product_id) (cart_items db).

End CartItemRepository.

Module OrderRepository.
Import Db.

Definition get_by_id (id : Z) : M (option Order.t) :=
  query (fun db => orders db !! id).

Definition items_of (order_id : Z) (db : t) : list OrderItem.t :=
  filter (fun i => OrderItem.order_id i = order_id) (order_items db).

Definition get_by_id_with_details (order_id : Z) : M (option Order.loaded) :=
  let* order := get_by_id order_id in
  match order with
  | None => ret None
  | Some o =>
      let* its := query (items_of order_id) in
      ret (Some {| Order.id := order_id; Order.row := o; Order.items := its |})
  end.

(** [BaseRepository.create]: the row takes the next value of the
    table's sequence; its [items] are empty when it is refreshed. *)
Definition create (obj_in : Order.t) : M Order.loaded :=
  let* id := query orders_seq in
  run execute (with_orders (insert id obj_in) (id + 1)) in
  ret {| Order.id := id; Order.row := obj_in; Order.items := [] |}.

(** [BaseRepository.update(order_id, {"status": status})] *)
Definition update_status (order_id : Z) (status : OrderStatus.t)
    : M (option Order.t) :=
  run execute (fun db =>
    with_orders (alter (Order.set_status status) order_id) (orders_seq db) db) in
  get_by_id order_id.
End OrderRepository.

Module OrderItemRepository.
Import Db.

(** The dictionaries that the order service builds for its lines. *)
Record item_data := {
  product_id : Z;
  quantity : Z;
  unit_price : Q
}.

Fixpoint number_items (order_id : Z) (next_id : Z) (items : list item_data)
    : list OrderItem.t :=
  match items with
  | [] => []
  | item :: items' =>
      {| OrderItem.id := next_id; OrderItem.order_id := order_id;
         OrderItem.product_id := product_id item;
         OrderItem.quantity := quantity item;
         OrderItem.unit_price := unit_price item |}
      :: number_items order_id (next_id + 1) items'
  end.

Definition bulk_create_items (order_id : Z) (items : list item_data)
    : M (list OrderItem.t) :=
  let* next_id := query order_items_seq in
  let db_objects := number_items order_id next_id items in
  run execute (with_order_items (fun rows => (rows ++ db_objects)%list)
             (next_id + Z.of_nat (length items))) in
  ret db_objects.
End OrderItemRepository.

Module CouponRepository.
Import Db.

(** Modelled from the spec: [repositories/coupon.py] is not in the source
    tree. By-code lookup on the unique [code] column. *)
Definition get_by_code (code : string) : M (option Coupon.t) :=
  let* rows := query (fun db => filter (fun c => Coupon.code c = code) (coupons db)) in
  lift (scalar_one_or_none rows).

(** Modelled from the spec: [repositories/coupon.py] is not in the source
    tree. "validate-code (returns validity, the coupon if found, and an
    error reason: not-found, inactive, or expired)". *)
Definition validate_code (now : Z) (code : string)
    : M (bool * option Coupon.t * option string) :=
  let* coupon := get_by_code code in
  match coupon with
  | None => ret (false, None, Some "not-found")
  | Some c =>
      if negb (Coupon.is_active c) then
        ret (false, Some c, Some "inactive")
      else if Coupon.is_expired now c then
        ret (false, Some c, Some "expired")
      else ret (true, Some c, None)
  end.
End CouponRepository.

Module PaymentRepository.
Import Db.

(** Inherited from [BaseRepository]. *)
Definition get_by_id (id : Z) : M (option Payment.t) :=
  query (fun db => payments db !! id).

Definition set_success (transaction_reference : option string) (now : Z)
    (p : Payment.t) : Payment.t :=
  {| Payment.order_id := Payment.order_id p;
     Payment.status := PaymentStatus.SUCCESS;
     Payment.amount := Payment.amount p;
     Payment.transaction_reference := transaction_reference;
     Payment.paid_at := Some now |}.

Definition set_status (s : PaymentStatus.t) (p : Payment.t) : Payment.t :=
  {| Payment.order_id := Payment.order_id p;
     Payment.status := s;
     Payment.amount := Payment.amount p;
     Payment.transaction_reference := Payment.transaction_reference p;
     Payment.paid_at := Payment.paid_at p |}.

(** Modelled from the spec: [repositories/payment.py] is not in the source
    tree. "mark-as-success (sets status=success, stores transaction
    reference, sets paid-at=now)". The reference is whatever the caller
    passes, a string or [None]. *)
Definition mark_as_success (payment_id : Z)
    (transaction_reference : option string) (now : Z) : M (option Payment.t) :=
  run execute (with_payments (alter (set_success transaction_reference now) payment_id)) in
  get_by_id payment_id.

(** Modelled from the spec: [repositories/payment.py] is not in the source
    tree. "mark-as-failed". *)
Definition mark_as_failed (payment_id : Z) : M (option Payment.t) :=
  run execute (with_payments (alter (set_status PaymentStatus.FAILED) payment_id)) in
  get_by_id payment_id.

(** Modelled from the spec: [repositories/payment.py] is not in the source
    tree. "by-transaction-reference", on the unique
    [transaction_reference] column; the result carries the row's id. *)
Definition get_by_transaction_reference (reference : option string)
    : M (option (Z * Payment.t)) :=
  let* rows := query (fun db =>
    filter (fun r => Payment.transaction_reference r.2 = reference)
           (map_to_list (payments db))) in
  lift (scalar_one_or_none rows).
End PaymentRepository.

(** ** [app/services/order.py] *)

Module OrderService.
Import Db.

(** [schemas.order.OrderFromCart] *)
Record OrderFromCart := {
  billing_address_id : Z;
  shipping_address_id : Z;
  coupon_code : option string
}.

(** [if order_data.coupon_code:] is false for [None] and for the empty string. *)
Definition coupon_code_truthy (code : option string) : option string :=
  match code with
  | Some c => if String.eqb c EmptyString then None else Some c
  | None => None
  end.

(** The body of the availability loop, for one cart line. *)
Definition check_line (cart_item : CartItem.t) : M unit :=
  let* product := ProductRepository.get_by_id (CartItem.product_id cart_item) in
  match product with
  | None =>
      raise (HTTPException HTTP_400_BAD_REQUEST
               ("Le produit " +:+ pretty (CartItem.product_id cart_item)
                +:+ " n'est plus disponible"))
  | Some product =>
      if negb (Product.is_active product) then
        raise (HTTPException HTTP_400_BAD_REQUEST
                 ("Le produit " +:+ pretty (CartItem.product_id cart_item)
                  +:+ " n'est plus disponible"))
      else if Product.stock product <? CartItem.quantity cart_item then
        raise (HTTPException HTTP_400_BAD_REQUEST
                 ("Stock insuffisant pour " +:+ Product.name product))
      else ret tt
  end.

(** The coupon step: the total after the discount. *)
Definition apply_coupon (now : Z) (coupon_code : option string)
    (total_amount : Q) : M Q :=
  match coupon_code_truthy coupon_code with
  | None => ret total_amount
  | Some code =>
      let* validated := CouponRepository.validate_code now code in
      let '(is_valid, coupon, error) := validated in
      if negb is_valid then
        raise (HTTPException HTTP_400_BAD_REQUEST
                 (match error with
                  | Some e => if String.eqb e EmptyString then "Code promo invalide" else e
                  | None => "Code promo invalide"
                  end))
      else
        match coupon with
        | None => raise (AttributeError "calculate_discount")
        | Some coupon =>
            let discount_amount := Coupon.calculate_discount now coupon total_amount in
            ret (total_amount - discount_amount)%Q
        end
  end.

Definition create_order_from_cart (now : Z) (user_id : Z)
    (order_data : OrderFromCart) : M (option Order.loaded) :=
  let* cart := CartRepository.get_by_user_id user_id in
  match cart with
  | None => raise (HTTPException HTTP_400_BAD_REQUEST "Le panier est vide")
  | Some cart =>
      if Cart.is_empty cart then
        raise (HTTPException HTTP_400_BAD_REQUEST "Le panier est vide")
      else
        run for_each (Cart.items cart) check_line in
        let total_amount := Cart.subtotal cart in
        let* total_amount := apply_coupon now (coupon_code order_data) total_amount in
        let order_dict :=
          {| Order.user_id := user_id;
             Order.status := OrderStatus.PENDING;
             Order.total_amount := total_amount;
             Order.billing_address_id := Some (billing_address_id order_data);
             Order.shipping_address_id := Some (shipping_address_id order_data) |} in
        let* order := OrderRepository.create order_dict in
        let order_items_data :=
          map (fun cart_item =>
                 {| OrderItemRepository.product_id := CartItem.product_id cart_item;
                    OrderItemRepository.quantity := CartItem.quantity cart_item;
                    OrderItemRepository.unit_price := CartItem.price cart_item |})
              (Cart.items cart) in
        run OrderItemRepository.bulk_create_items (Order.id order) order_items_data in
        run for_each (Cart.items cart) (fun cart_item =>
              run ProductRepository.decrease_stock
                    (CartItem.product_id cart_item) (CartItem.quantity cart_item) in
              ret tt) in
        run CartRepository.clear (Cart.id (Cart.row cart)) in
        OrderRepository.get_by_id_with_details (Order.id order)
  end.

(** [if user_id and ...]: false for [None] and for the id 0. *)
Definition user_id_truthy (user_id : option Z) : option Z :=
  match user_id with
  | Some u => if u =? 0 then None else Some u
  | None => None
  end.

Definition get_order_by_id (order_id : Z) (user_id : option Z) : M Order.loaded :=
  let* order := OrderRepository.get_by_id_with_details order_id in
  match order with
  | None => raise (HTTPException HTTP_404_NOT_FOUND "Commande non trouvée")
  | Some order =>
      match user_id_truthy user_id with
      | Some u =>
          if bool_decide (Order.user_id (Order.row order) ≠ u) then
            raise (HTTPException HTTP_403_FORBIDDEN
                     "Vous n'avez pas accès à cette commande")
          else ret order
      | None => ret order
      end
  end.

Definition cancel_order (order_id : Z) (user_id : option Z) : M (option Order.t) :=
  let* order := get_order_by_id order_id user_id in
  if negb (Order.can_be_cancelled (Order.row order)) then
    raise (HTTPException HTTP_400_BAD_REQUEST
             "Cette commande ne peut plus être annulée")
  else
    run for_each (Order.items order) (fun item =>
          run ProductRepository.increase_stock
                (OrderItem.product_id item) (OrderItem.quantity item) in
          ret tt) in
    let* cancelled_order :=
      OrderRepository.update_status order_id OrderStatus.CANCELLED in
    ret cancelled_order.
(** The ownership check of [get_order_by_id] lets the caller through. *)
Definition may_access (user_id : option Z) (o : Order.t) : Prop :=
  match user_id_truthy user_id with
  | None => True
  | Some u => Order.user_id o = u
  end.

(** A cart line that cannot be ordered: its product is missing, inactive,
    or has less stock than the line asks for. *)
Definition unavailable (db : Db.t) (cart_item : CartItem.t) : Prop :=
  match products db !! CartItem.product_id cart_item with
  | None => True
  | Some product =>
      Product.is_active product = false
      \/ Product.stock product < CartItem.quantity cart_item
  end.

(** The quantity that the lines of an order hold of one product. *)
Fixpoint ordered (product_id : Z) (items : list OrderItem.t) : Z :=
  match items with
  | [] => 0
  | item :: items' =>
      (if decide (OrderItem.product_id item = product_id)
       then OrderItem.quantity item else 0)
      + ordered product_id items'
  end.

End OrderService.

(** ** [app/services/payment.py] *)

Module Json.
(** The part of JSON that the webhook payloads use. *)
#[warnings="-register-all"]
Inductive t :=
| JNull
| JStr (s : string)
| JObj (fields : list (string * t)).

Fixpoint assoc (key : string) (fields : list (string * t)) : option t :=
  match fields with
  | [] => None
  | (k, v) :: fields' => if String.eqb k key then Some v else assoc key fields'
  end.

(** [d.get(key, default)]; on a value that is not a dictionary the
    attribute [get] is missing. *)
Definition get (d : t) (key : string) (default : t) : Result t :=
  match d with
  | JObj fields =>
      match assoc key fields with
      | Some v => inr v
      | None => inr default
      end
  | _ => inl (AttributeError "get")
  end.
End Json.

Module PaymentService.
Import Db.

Definition process_payment (now : Z) (payment_id : Z)
    (transaction_reference : option string) : M (option Payment.t) :=
  let* payment := PaymentRepository.get_by_id payment_id in
  match payment with
  | None => raise (HTTPException HTTP_404_NOT_FOUND "Paiement non trouvé")
  | Some payment =>
      let* updated_payment :=
        PaymentRepository.mark_as_success payment_id transaction_reference now in
      run OrderRepository.update_status (Payment.order_id payment) OrderStatus.PAID in
      ret updated_payment
  end.

Definition fail_payment (payment_id : Z) : M (option Payment.t) :=
  let* payment := PaymentRepository.get_by_id payment_id in
  match payment with
  | None => raise (HTTPException HTTP_404_NOT_FOUND "Paiement non trouvé")
  | Some _ =>
      let* updated_payment := PaymentRepository.mark_as_failed payment_id in
      ret updated_payment
  end.

(** A JSON value used as a column value: a string, or NULL; a dictionary
    cannot be bound to a statement. *)
Definition as_reference (j : Json.t) : Result (option string) :=
  match j with
  | Json.JStr s => inr (Some s)
  | Json.JNull => inr None
  | Json.JObj _ => inl StatementError
  end.

(** [event_type == name] *)
Definition is_event (event_type : Json.t) (name : string) : bool :=
  match event_type with
  | Json.JStr s => String.eqb s name
  | _ => false
  end.

(** [event_data.get("data", {}).get("object", {}).get("id")] *)
Definition payment_intent_id_of (event_data : Json.t) : M (option string) :=
  let* data := lift (Json.get event_data "data" (Json.JObj [])) in
  let* payment_intent := lift (Json.get data "object" (Json.JObj [])) in
  let* payment_intent_id := lift (Json.get payment_intent "id" Json.JNull) in
  lift (as_reference payment_intent_id).

Definition process_stripe_webhook (now : Z) (event_data : Json.t)
    : M (option Payment.t) :=
  let* event_type := lift (Json.get event_data "type" Json.JNull) in
  if is_event event_type "payment_intent.succeeded" then
    let* payment_intent_id := payment_intent_id_of event_data in
    let* payment :=
      PaymentRepository.get_by_transaction_reference payment_intent_id in
    match payment with
    | Some (id, _) => process_payment now id payment_intent_id
    | None => ret None
    end
  else if is_event event_type "payment_intent.payment_failed" then
    let* payment_intent_id := payment_intent_id_of event_data in
    let* payment :=
      PaymentRepository.get_by_transaction_reference payment_intent_id in
    match payment with
    | Some (id, _) => fail_payment id
    | None => ret None
    end
  else ret None.
(** The payload of a [payment_intent.succeeded] event for an intent id. *)
Definition succeeded_event (payment_intent_id : string) : Json.t :=
  Json.JObj
    [("type", Json.JStr "payment_intent.succeeded");
     ("data", Json.JObj [("object", Json.JObj [("id", Json.JStr payment_intent_id)])])].

End PaymentService.


(** ** [app/models/category.py]: the category tree *)

Module Category.

Record t := {
  parent_id : option Z;
  name : string
}.

Definition is_root (c : t) : bool :=
  match parent_id c with
  | None => true
  | Some _ => false
  end.

(** The [while] loop of [level]. [categories] is the table that the
    [parent] relationship is read from, [current] is [None] once the
    relationship has come back empty, and [fuel] bounds the number of
    iterations: [None] means that the fuel ran out. *)
Fixpoint level_loop (fuel : nat) (categories : gmap Z t) (level : Z)
    (current : option t) : option (Result Z) :=
  match fuel with
  | O => None
  | S fuel' =>
      match current with
      | None => Some (inl (AttributeError "parent_id"))
      | Some cur =>
          match parent_id cur with
          | None => Some (inr level)
          | Some pid =>
              let level := level + 1 in
              let current := categories !! pid in
              if 10 <? level then Some (inr level)
              else level_loop fuel' categories level current
          end
      end
  end.

Definition level (fuel : nat) (categories : gmap Z t) (self : t)
    : option (Result Z) :=
  if is_root self then Some (inr 0)
  else level_loop fuel categories 0 (Some self).

(** The [while] loop of [full_path]; [path] is the list being built. *)
Fixpoint full_path_loop (fuel : nat) (categories : gmap Z t)
    (path : list string) (current : t) : option (Result (list string)) :=
  match fuel with
  | O => None
  | S fuel' =>
      match parent_id current with
      | None => Some (inr path)
      | Some pid =>
          match categories !! pid with
          | None => Some (inl (AttributeError "name"))
          | Some current =>
              let path := name current :: path in
              if (10 <? Z.of_nat (length path)) then Some (inr path)
              else full_path_loop fuel' categories path current
          end
      end
  end.

(** The list that [full_path] joins. *)
Definition full_path_parts (fuel : nat) (categories : gmap Z t) (self : t)
    : option (Result (list string)) :=
  if is_root self then Some (inr [name self])
  else full_path_loop fuel categories [name self] self.

Definition full_path (fuel : nat) (categories : gmap Z t) (self : t)
    : option (Result string) :=
  match full_path_parts fuel categories self with
  | None => None
  | Some (inl e) => Some (inl e)
  | Some (inr path) => Some (inr (join " > " path))
  end.

(** Referential integrity of the [parent_id] foreign key. *)
Definition closed (categories : gmap Z t) : Prop :=
  forall id c pid,
    categories !! id = Some c -> parent_id c = Some pid ->
    is_Some (categories !! pid).

End Category.

(** ** [backend/app/ingest/chunk.py] *)

Module Chunk.

Record t := {
  id : string;
  name : option string;
  type : string;
  language : string;
  path : string;
  code : string;
  params : list string;
  imports : list string;
  role : option string;
  summary : option string;
  metadata : list (string * string)
}.

(** The values that the attributes of a chunk hold. *)
Inductive value :=
| VNone
| VStr (s : string)
| VList (l : list string)
| VDict (d : list (string * string)).

Definition of_optional (o : option string) : value :=
  match o with
  | None => VNone
  | Some s => VStr s
  end.

(** [self.attr]: the dataclass has the fields listed above and no other
    attribute. *)
Definition getattr (self : t) (attr : string) : Result value :=
  if String.eqb attr "id" then inr (VStr (id self))
  else if String.eqb attr "name" then inr (of_optional (name self))
  else if String.eqb attr "type" then inr (VStr (type self))
  else if String.eqb attr "language" then inr (VStr (language self))
  else if String.eqb attr "path" then inr (VStr (path self))
  else if String.eqb attr "code" then inr (VStr (code self))
  else if String.eqb attr "params" then inr (VList (params self))
  else if String.eqb attr "imports" then inr (VList (imports self))
  else if String.eqb attr "role" then inr (of_optional (role self))
  else if String.eqb attr "summary" then inr (of_optional (summary self))
  else if String.eqb attr "metadata" then inr (VDict (metadata self))
  else inl (AttributeError attr).

(** [if v:] *)
Definition truthy (v : value) : bool :=
  match v with
  | VNone => false
  | VStr s => negb (String.eqb s EmptyString)
  | VList l => negb (bool_decide (l = []))
  | VDict d => negb (bool_decide (d = []))
  end.

(** [repr(s)] of a string, for strings that need no escaping. *)
Definition repr (s : string) : string := "'" +:+ s +:+ "'".

(** [f"{v}"] *)
Definition format (v : value) : string :=
  match v with
  | VNone => "None"
  | VStr s => s
  | VList l => "[" +:+ join ", " (map repr l) +:+ "]"
  | VDict d =>
      "{" +:+ join ", " (map (fun kv => repr kv.1 +:+ ": " +:+ repr kv.2) d) +:+ "}"
  end.

(** The one-character strings of a string. *)
Fixpoint chars (s : string) : list string :=
  match s with
  | EmptyString => []
  | String c s' => String c EmptyString :: chars s'
  end.

(** What [', '.join(v)] iterates over: the elements of a list, the
    characters of a string, the keys of a dictionary; [None] is not
    iterable. *)
Definition iterate (v : value) : Result (list string) :=
  match v with
  | VList l => inr l
  | VStr s => inr (chars s)
  | VDict d => inr (map fst d)
  | VNone => inl TypeError
  end.

(** An element of the list that the final [join] reads has to be a
    string. *)
Definition as_str (v : value) : Result string :=
  match v with
  | VStr s => inr s
  | _ => inl TypeError
  end.

Definition to_embedding (self : t) : Result string :=
  Py.bind (getattr self "type") (fun type =>
  Py.bind (getattr self "name") (fun name =>
  Py.bind (getattr self "language") (fun language =>
  Py.bind (getattr self "file_path") (fun file_path =>
  let parts := ["Type: " +:+ format type; "Nom: " +:+ format name;
                "Langage: " +:+ format language;
                "Fichier: " +:+ format file_path] in
  Py.bind (getattr self "role") (fun role =>
  Py.bind (if truthy role
           then Py.bind (getattr self "role") (fun role =>
                  inr (parts ++ ["Role: " +:+ format role])%list)
           else inr parts) (fun parts =>
  Py.bind (getattr self "params") (fun params =>
  Py.bind (if truthy params
           then Py.bind (getattr self "params") (fun params =>
                Py.bind (iterate params) (fun ps =>
                  inr (parts ++ ["Paramètres: " +:+ join ", " ps])%list))
           else inr parts) (fun parts =>
  Py.bind (getattr self "imports") (fun imports =>
  Py.bind (if truthy imports
           then Py.bind (getattr self "imports") (fun imports =>
                Py.bind (iterate imports) (fun ims =>
                  inr (parts ++ ["Imports: " +:+ join ", " ims])%list))
           else inr parts) (fun parts =>
  Py.bind (getattr self "summary") (fun summary =>
  Py.bind (if truthy summary
           then Py.bind (getattr self "summary") (fun summary =>
                  inr (parts ++ ["Résumé: " +:+ format summary])%list)
           else inr parts) (fun parts =>
  let parts := (parts ++ ["Code:"])%list in
  Py.bind (getattr self "code") (fun code =>
  Py.bind (as_str code) (fun code =>
  let parts := (parts ++ [code])%list in
  inr (join (String "010"%char EmptyString) parts))))))))))))))).

End Chunk.

(** ** [backend/app/ingest/ingest_repo.py] *)

Module IngestRepo.

Definition SUPORTED_EXT : list string := [".js"; ".md"; ".yml"; "yaml"].

(** A directory: its sub-directories by name, and the names of its files,
    both in the order in which the operating system lists them. *)
#[warnings="-register-all"]
Inductive Dir :=
| mkDir (dirs : list (string * Dir)) (filenames : list string).

Definition startswith_slash (s : string) : bool :=
  match s with
  | String "/"%char _ => true
  | _ => false
  end.

(** [os.path.join(a, b)] *)
Definition path_join (a b : string) : string :=
  if startswith_slash b then b
  else if String.eqb a EmptyString || endswith a "/" then a +:+ b
  else a +:+ "/" +:+ b.

(** [os.walk(path)], top-down: the directory itself, then each
    sub-directory in turn. *)
Fixpoint walk (root : string) (d : Dir) : list (string * list string) :=
  match d with
  | mkDir dirs filenames =>
      (root, filenames)
      :: (fix walk_dirs (ds : list (string * Dir)) : list (string * list string) :=
            match ds with
            | [] => []
            | (dname, sub) :: ds' =>
                (walk (path_join root dname) sub ++ walk_dirs ds')%list
            end) dirs
  end.

(** [any(file.endswith(ext) for ext in SUPORTED_EXT)] *)
Definition supported (file : string) : bool :=
  existsb (fun ext => endswith file ext) SUPORTED_EXT.

Definition get_file (path : string) (fs : Dir) : list string :=
  flat_map (fun '(root, filenames) =>
              map (path_join root) (filter (fun file => supported file = true) filenames))
           (walk path fs).

(** The membership test as the specification words it: a name that ends
    with [.js], [.md] or [.yml], or that contains [yaml] anywhere. *)
Definition spec_supported (file : string) : bool :=
  endswith file ".js" || endswith file ".md" || endswith file ".yml"
  || contains file "yaml".

End IngestRepo.


(** ** [app/core/security.py]: the current user, the role guards, utilities *)

Module UserRole.
Inductive t := CUSTOMER | ADMIN | MANAGER.
#[global] Instance eq_dec : EqDecision t.
Proof. solve_decision. Defined.

(** The string that the [str] enumeration member is equal to. *)
Definition value (r : t) : string :=
  match r with
  | CUSTOMER => "customer"
  | ADMIN => "admin"
  | MANAGER => "manager"
  end.
End UserRole.

Module User.
Record t := {
  email : string;
  role : UserRole.t;
  is_active : bool
}.
End User.

Module CurrentUser.
Import Security.

Section WithInt.
(** [int(x)] on a claim value, Python's own parser. *)
Variable int : Claim -> Result Z.

Definition get_current_user_id (settings : Settings) (now : Z) (token : JWT)
    : Result Z :=
  Py.bind (decode_token settings now token) (fun payload =>
  let token_type := payload !! "type" in
  if bool_decide (token_type ≠ Some (CStr "access")) then
    Py.raise (HTTPException HTTP_401_UNAUTHORIZED "Type de token invalide")
  else
    match payload !! "sub" with
    | None =>
        Py.raise (HTTPException HTTP_401_UNAUTHORIZED
                    "Token invalide: utilisateur non trouvé")
    | Some user_id => int user_id
    end).
End WithInt.

(** [UserRepository.get_by_id] is the lookup by primary key. *)
Definition get_current_user (users : gmap Z User.t) (user_id : Z) : Result User.t :=
  match users !! user_id with
  | None => Py.raise (HTTPException HTTP_404_NOT_FOUND "Utilisateur non trouvé")
  | Some user =>
      if negb (User.is_active user) then
        Py.raise (HTTPException HTTP_403_FORBIDDEN "Compte utilisateur désactivé")
      else Py.ret user
  end.

Definition get_current_active_user (current_user : User.t) : Result User.t :=
  Py.ret current_user.

(** [RoleChecker(allowed_roles).__call__] *)
Definition RoleChecker (allowed_roles : list string) (current_user : User.t)
    : Result User.t :=
  if bool_decide (UserRole.value (User.role current_user) ∉ allowed_roles) then
    Py.raise (HTTPException HTTP_403_FORBIDDEN "Permissions insuffisantes")
  else Py.ret current_user.

Definition require_admin : User.t -> Result User.t := RoleChecker ["admin"].
Definition require_admin_or_manager : User.t -> Result User.t :=
  RoleChecker ["admin"; "manager"].

End CurrentUser.

(** ** [app/api/dependencies.py] *)

Module Dependencies.

Definition require_admin (current_user : User.t) : Result User.t :=
  if bool_decide (User.role current_user ≠ UserRole.ADMIN) then
    Py.raise (HTTPException HTTP_403_FORBIDDEN "Permissions administrateur requises")
  else Py.ret current_user.

Definition require_admin_or_manager (current_user : User.t) : Result User.t :=
  if bool_decide (User.role current_user ∉ [UserRole.ADMIN; UserRole.MANAGER]) then
    Py.raise (HTTPException HTTP_403_FORBIDDEN
                "Permissions administrateur ou manager requises")
  else Py.ret current_user.

(** [PaginationParams]; the query validation keeps [page >= 1] and
    [1 <= page_size <= 100]. *)
Record PaginationParams := {
  page : Z;
  page_size : Z
}.

Definition skip (self : PaginationParams) : Z := (page self - 1) * page_size self.
Definition limit (self : PaginationParams) : Z := page_size self.

(** [//] is the floor division. *)
Definition get_total_pages (self : PaginationParams) (total : Z) : Z :=
  (total + page_size self - 1) / page_size self.

(** The dictionary that [create_paginated_response] builds. *)
Record PaginatedResponse (A : Type) := {
  items : list A;
  total : Z;
  response_page : Z;
  response_page_size : Z;
  total_pages : Z;
  has_next : bool;
  has_prev : bool
}.
Arguments items {A}.
Arguments total {A}.
Arguments response_page {A}.
Arguments response_page_size {A}.
Arguments total_pages {A}.
Arguments has_next {A}.
Arguments has_prev {A}.

Definition create_paginated_response {A} (items : list A)
    (total page page_size : Z) : PaginatedResponse A :=
  let total_pages := (total + page_size - 1) / page_size in
  {| items := items; total := total; response_page := page;
     response_page_size := page_size; total_pages := total_pages;
     has_next := page <? total_pages; has_prev := 1 <? page |}.

End Dependencies.

(** ** [app/core/security.py]: [mask_email] *)

Module SecurityUtil.

(** The exceptions of the string operations. *)
Inductive Error := ValueError | IndexError.

(** The first piece of [s.split("@")] and the pieces after it. *)
Fixpoint split_at (s : string) : string * list string :=
  match s with
  | EmptyString => (EmptyString, [])
  | String c s' =>
      let '(piece, pieces) := split_at s' in
      if Ascii.eqb c "@"%char then (EmptyString, piece :: pieces)
      else (String c piece, pieces)
  end.

(** [s.split("@")] *)
Definition split (s : string) : list string :=
  let '(piece, pieces) := split_at s in piece :: pieces.

(** [s[0]], as a string. *)
Definition first_char (s : string) : Error + string :=
  match s with
  | EmptyString => inl IndexError
  | String c _ => inr (String c EmptyString)
  end.

Definition mask_email (email : string) : Error + string :=
  if negb (contains email "@") then inr email
  else
    match split email with
    | [local; domain] =>
        match first_char local with
        | inl e => inl e
        | inr c =>
            let masked_local :=
              if (String.length local <=? 2)%nat then c +:+ "*" else c +:+ "***" in
            inr (masked_local +:+ "@" +:+ domain)
        end
    | _ => inl ValueError
    end.

End SecurityUtil.

(** ** [app/repositories/cart.py] and [app/models/cart.py]: the rest *)

Module CartExtra.
Import Db.

(** [CartItem.is_available]; the [product] relationship is the product row
    that the line points to, if there is one. *)
Definition is_available (db : Db.t) (self : CartItem.t) : bool :=
  match products db !! CartItem.product_id self with
  | None => false
  | Some product =>
      Product.is_active product
      && (CartItem.quantity self <=? Product.stock product)
  end.

(** [BaseRepository.get_by_id] on carts, with the [items] relationship. *)
Definition get_by_id (cart_id : Z) : M (option Cart.loaded) :=
  let* rows := query (fun db => filter (fun c => Cart.id c = cart_id) (carts db)) in
  let* cart := lift (scalar_one_or_none rows) in
  match cart with
  | None => ret None
  | Some c =>
      let* its := query (CartRepository.items_of (Cart.id c)) in
      ret (Some {| Cart.row := c; Cart.items := its |})
  end.

Definition get_items_count (cart_id : Z) : M Z :=
  let* cart := get_by_id cart_id in
  match cart with
  | None => ret 0
  | Some cart =>
      match Cart.items cart with
      | [] => ret 0
      | its => ret (fold_left Z.add (map CartItem.quantity its) 0)
      end
  end.

(** [BaseRepository.delete(id)] on cart lines: the number of rows that the
    statement hits decides the result. *)
Definition delete (id : Z) : M bool :=
  let* rowcount := query (fun db =>
    Z.of_nat (length (filter (fun i => CartItem.id i = id) (cart_items db)))) in
  run execute (fun db =>
    with_cart_items (filter (fun i => CartItem.id i ≠ id)) (cart_items_seq db) db) in
  ret (0 <? rowcount).

Definition remove_item (item_id : Z) : M bool := delete item_id.

Definition get_cart_items (cart_id : Z) : M (list CartItem.t) :=
  query (CartRepository.items_of cart_id).

(** The quantity that cart lines hold of one product. *)
Fixpoint quantity_of (product_id : Z) (items : list CartItem.t) : Z :=
  match items with
  | [] => 0
  | item :: items' =>
      (if decide (CartItem.product_id item = product_id)
       then CartItem.quantity item else 0)
      + quantity_of product_id items'
  end.

End CartExtra.

(** ** [app/services/order.py] and [app/repositories/order.py]: the rest *)

Module OrderExtra.
Import Db.

(** [BaseRepository.count()] on orders. *)
Definition count : M Z :=
  query (fun db => Z.of_nat (length (map_to_list (orders db)))).

(** [count_by_status(status)], that is [count(status=status)]. *)
Definition count_by_status (status : OrderStatus.t) : M Z :=
  query (fun db =>
    Z.of_nat (length (filter (fun r => Order.status r.2 = status)
                             (map_to_list (orders db))))).

Definition update_order_status (order_id : Z) (new_status : OrderStatus.t)
    : M (option Order.t) :=
  let* order := OrderService.get_order_by_id order_id None in
  let* updated_order := OrderRepository.update_status order_id new_status in
  ret updated_order.

(** The dictionary of [get_order_statistics], in the order of its keys. *)
Definition get_order_statistics : M (list (string * Z)) :=
  let* total := count in
  let* pending := count_by_status OrderStatus.PENDING in
  let* paid := count_by_status OrderStatus.PAID in
  let* shipped := count_by_status OrderStatus.SHIPPED in
  let* delivered := count_by_status OrderStatus.DELIVERED in
  let* cancelled := count_by_status OrderStatus.CANCELLED in
  ret [("total", total); ("pending", pending); ("paid", paid);
       ("shipped", shipped); ("delivered", delivered); ("cancelled", cancelled)].

(** The order items that [create_order_from_cart] makes of cart lines:
    product, quantity and captured price of every line, numbered from the
    next value of the sequence. *)
Definition order_lines (order_id next_id : Z) (items : list CartItem.t)
    : list OrderItem.t :=
  OrderItemRepository.number_items order_id next_id
    (map (fun cart_item =>
            {| OrderItemRepository.product_id := CartItem.product_id cart_item;
               OrderItemRepository.quantity := CartItem.quantity cart_item;
               OrderItemRepository.unit_price := CartItem.price cart_item |})
         items).

End OrderExtra.

(** ** [app/services/coupon.py] *)

Module CouponService.
Import Db.

Section WithRepository.
(** [CouponRepository.validate_code], whose file is not in the source tree,
    and the rendering of a [Decimal] inside an f-string. *)
Variable validate_code : string -> M (bool * option Coupon.t * option string).
Variable str : Q -> string.

Definition validate_coupon (now : Z) (code : string) (order_amount : Q)
    : M (bool * option Coupon.t * option string * Q * Q) :=
  let* validated := validate_code code in
  let '(is_valid, coupon, error) := validated in
  if negb is_valid then ret (false, coupon, error, 0%Q, order_amount)
  else
    match coupon with
    | None => raise (AttributeError "min_order_amount")
    | Some c =>
        if Coupon.below_minimum c order_amount then
          let error_msg :=
            "Montant minimum requis: "
            +:+ match Coupon.min_order_amount c with
                | Some m => str m
                | None => "None"
                end
            +:+ "€. Votre panier: " +:+ str order_amount +:+ "€" in
          ret (false, coupon, Some error_msg, 0%Q, order_amount)
        else
          let discount_amount := Coupon.calculate_discount now c order_amount in
          let final_amount := (order_amount - discount_amount)%Q in
          ret (true, coupon, None, discount_amount, final_amount)
    end.
End WithRepository.

End CouponService.

(** ** [app/models/category.py]: the chain of ancestors *)

Module CategoryChain.
Import Category.

(** The nearest [n] ancestors of a category, the farthest first; the chain
    stops at a root. *)
Fixpoint ancestors (n : nat) (categories : gmap Z t) (current : t) : list t :=
  match n with
  | O => []
  | S n' =>
      match parent_id current with
      | None => []
      | Some pid =>
          match categories !! pid with
          | None => []
          | Some parent => (ancestors n' categories parent ++ [parent])%list
          end
      end
  end.

End CategoryChain.

(** ** Sample data

    A small shop, used to run the code on concrete inputs. *)

Module Sample.

Definition lamp : Product.t :=
  {| Product.name := "lamp"; Product.stock := 3; Product.is_active := true |}.

Definition desk : Product.t :=
  {| Product.name := "desk"; Product.stock := 1; Product.is_active := true |}.

Definition the_cart : Cart.t := {| Cart.id := 1; Cart.user_id := 42 |}.

(** Two lamps, of which there are three. *)
Definition lamp_line : CartItem.t :=
  {| CartItem.id := 1; CartItem.cart_id := 1; CartItem.product_id := 7;
     CartItem.quantity := 2; CartItem.price := 10 # 1 |}.

(** Two desks, of which there is one. *)
Definition desk_line : CartItem.t :=
  {| CartItem.id := 2; CartItem.cart_id := 1; CartItem.product_id := 8;
     CartItem.quantity := 2; CartItem.price := 99 # 2 |}.

Definition paid_order : Order.t :=
  {| Order.user_id := 42; Order.status := OrderStatus.PAID;
     Order.total_amount := 119 # 1;
     Order.billing_address_id := None; Order.shipping_address_id := None |}.

Definition refunded_payment : Payment.t :=
  {| Payment.order_id := 5; Payment.status := PaymentStatus.REFUNDED;
     Payment.amount := 119 # 1;
     Payment.transaction_reference := Some "pi_1";
     Payment.paid_at := Some 1000 |}.

Definition checkout : OrderService.OrderFromCart :=
  {| OrderService.billing_address_id := 1; OrderService.shipping_address_id := 1;
     OrderService.coupon_code := None |}.

Definition db : Db.t :=
  {| Db.products := <[7 := lamp]> (<[8 := desk]> ∅);
     Db.carts := [the_cart];
     Db.cart_items := [lamp_line; desk_line];
     Db.cart_items_seq := 3;
     Db.orders :=
       <[5 := paid_order]>
       (<[6 := {| Order.user_id := 42; Order.status := OrderStatus.SHIPPED;
                  Order.total_amount := 10 # 1;
                  Order.billing_address_id := None;
                  Order.shipping_address_id := None |}]> ∅);
     Db.orders_seq := 7;
     Db.order_items :=
       [{| OrderItem.id := 1; OrderItem.order_id := 5; OrderItem.product_id := 7;
           OrderItem.quantity := 2; OrderItem.unit_price := 10 # 1 |};
        {| OrderItem.id := 2; OrderItem.order_id := 5; OrderItem.product_id := 8;
           OrderItem.quantity := 3; OrderItem.unit_price := 33 # 1 |};
        {| OrderItem.id := 3; OrderItem.order_id := 6; OrderItem.product_id := 7;
           OrderItem.quantity := 1; OrderItem.unit_price := 10 # 1 |}];
     Db.order_items_seq := 4;
     Db.payments :=
       <[1 := refunded_payment]> ∅;
     Db.coupons := [] |}.

Definition twenty_percent : Coupon.t :=
  {| Coupon.code := "NOEL2024"; Coupon.discount_type := Coupon.PERCENTAGE;
     Coupon.discount_value := 20 # 1; Coupon.min_order_amount := Some (30 # 1);
     Coupon.expires_at := Some 2000; Coupon.is_active := true |}.

Definition chunk : Chunk.t :=
  {| Chunk.id := "<function uuid4>"; Chunk.name := None;
     Chunk.type := "unknown"; Chunk.language := "unknown";
     Chunk.path := EmptyString; Chunk.code := EmptyString;
     Chunk.params := []; Chunk.imports := [];
     Chunk.role := None; Chunk.summary := None; Chunk.metadata := [] |}.

(** A category that is its own parent. *)
Definition looped : Category.t :=
  {| Category.parent_id := Some 1; Category.name := "A" |}.

Definition cyclic : gmap Z Category.t := {[1 := looped]}.

Definition repo : IngestRepo.Dir :=
  IngestRepo.mkDir
    [("docs", IngestRepo.mkDir [] ["yaml.txt"; "conf.yaml"; "fooyaml"; "ci.yml"])]
    ["a.js"; "b.py"; "README.md"].

End Sample.

(** ** More sample data *)

Module Fixtures.

Definition settings : Security.Settings :=
  {| Security.SECRET_KEY := "0123456789abcdef0123456789abcdef";
     Security.ALGORITHM := "HS256";
     Security.ACCESS_TOKEN_EXPIRE_MINUTES := 30;
     Security.REFRESH_TOKEN_EXPIRE_DAYS := 7 |}.

(** The claims of a login: the user id as a string, and the role. *)
Definition login_claims : gmap string Security.Claim :=
  <["role" := Security.CStr "customer"]> {["sub" := Security.CStr "42"]}.

(** A reading of [int] that knows the subject of the sample. *)
Definition int (c : Security.Claim) : Result Z :=
  match c with
  | Security.CStr "42" => inr 42
  | _ => inl TypeError
  end.

Definition admin : User.t :=
  {| User.email := "root@example.com"; User.role := UserRole.ADMIN;
     User.is_active := true |}.

Definition disabled_admin : User.t :=
  {| User.email := "old@example.com"; User.role := UserRole.ADMIN;
     User.is_active := false |}.

Definition users : gmap Z User.t := <[1 := admin]> {[2 := disabled_admin]}.

Definition second_page : Dependencies.PaginationParams :=
  {| Dependencies.page := 2; Dependencies.page_size := 20 |}.

(** The sample database after a delivery of desks: every line of the cart
    can now be served. *)
Definition stocked : Db.t :=
  Db.with_products
    (insert 8 {| Product.name := "desk"; Product.stock := 5;
                 Product.is_active := true |})
    Sample.db.

(** A branch of a catalogue, as in the docstring of [full_path]. *)
Definition tree : gmap Z Category.t :=
  <[1 := {| Category.parent_id := None; Category.name := "Électronique" |}]>
  (<[2 := {| Category.parent_id := Some 1; Category.name := "Smartphones" |}]>
   {[3 := {| Category.parent_id := Some 2; Category.name := "Samsung" |}]}).

Definition samsung : Category.t :=
  {| Category.parent_id := Some 2; Category.name := "Samsung" |}.

(** The sample database with one coupon in it. *)
Definition with_coupon : Db.t :=
  {| Db.products := Db.products Sample.db; Db.carts := Db.carts Sample.db;
     Db.cart_items := Db.cart_items Sample.db;
     Db.cart_items_seq := Db.cart_items_seq Sample.db;
     Db.orders := Db.orders Sample.db; Db.orders_seq := Db.orders_seq Sample.db;
     Db.order_items := Db.order_items Sample.db;
     Db.order_items_seq := Db.order_items_seq Sample.db;
     Db.payments := Db.payments Sample.db;
     Db.coupons := [Sample.twenty_percent] |}.

(** A rendering of amounts that are whole numbers. *)
Definition str (q : Q) : string := pretty (Qnum q / Zpos (Qden q)).

(** A repository that accepts every code and finds no coupon. *)
Definition careless (code : string)
    : Db.M (bool * option Coupon.t * option string) :=
  Db.ret (true, None, None).

(** The sample database with the lines of the cart taken out. *)
Definition emptied : Db.t :=
  Db.with_cart_items (fun _ => []) 3 Sample.db.

End Fixtures.

(** * Properties *)

(** ** Tokens *)

Section Tokens.
Import Security.
Variables (settings : Settings) (now : Z).

Lemma access_token_claims (data : gmap string Claim) (delta : option Z) (key : string) :
  key ≠ "exp" -> key ≠ "iat" -> key ≠ "type" ->
  jwt_claims (create_access_token settings now data delta) !! key = data !! key.
Proof.
  intros Hexp Hiat Htype. unfold create_access_token, jwt_encode. simpl.
  by rewrite !lookup_insert_ne.
Qed.

Lemma access_token_type (data : gmap string Claim) (delta : option Z) :
  jwt_claims (create_access_token settings now data delta) !! "type"
  = Some (CStr "access").
Proof. unfold create_access_token, jwt_encode. simpl. apply lookup_insert_eq. Qed.

Lemma access_token_exp (data : gmap string Claim) (d : Z) :
  d ≠ 0 ->
  jwt_claims (create_access_token settings now data (Some d)) !! "exp"
  = Some (CTime (now + d)).
Proof.
  intros Hd. unfold create_access_token, jwt_encode, timedelta_truthy. simpl.
  destruct (Z.eqb_spec d 0) as [->|_]; [done|].
  rewrite lookup_insert_ne by done. rewrite lookup_insert_ne by done.
  apply lookup_insert_eq.
Qed.

Lemma decode_fresh_access_token (data : gmap string Claim) (d : Z) :
  0 < d ->
  decode_token settings now (create_access_token settings now data (Some d))
  = inr (jwt_claims (create_access_token settings now data (Some d))).
Proof.
  intros Hd. unfold decode_token, jwt_decode, jwt_expired.
  rewrite access_token_exp by lia.
  unfold create_access_token, jwt_encode. simpl.
  rewrite !bool_decide_eq_true_2; [|set_solver|done].
  destruct (Z.ltb_spec (now + d) now); [lia|done].
Qed.

(** C1 (the code departs from the claim). Both special-purpose token
    creators go through [create_access_token], whose [update] overwrites the
    [type] they put in the data: for every email address the decoded payload
    of an email-verification token and of a password-reset token has the
    address as its subject, but its type is ["access"], not
    ["email_verification"] or ["password_reset"]. *)
Theorem C1_special_tokens_are_typed_access (email : string) :
  (exists payload,
      decode_token settings now (create_email_verification_token settings now email)
      = inr payload
      /\ payload !! "sub" = Some (CStr email)
      /\ payload !! "type" = Some (CStr "access")
      /\ payload !! "type" ≠ Some (CStr "email_verification"))
  /\ (exists payload,
      decode_token settings now (create_password_reset_token settings now email)
      = inr payload
      /\ payload !! "sub" = Some (CStr email)
      /\ payload !! "type" = Some (CStr "access")
      /\ payload !! "type" ≠ Some (CStr "password_reset")).
Proof.
  split; eexists; (split; [apply decode_fresh_access_token; lia|]).
  - rewrite access_token_claims by done. rewrite access_token_type.
    rewrite lookup_insert_ne by done. rewrite lookup_singleton_eq. done.
  - rewrite access_token_claims by done. rewrite access_token_type.
    rewrite lookup_insert_ne by done. rewrite lookup_singleton_eq. done.
Qed.

End Tokens.

(** ** Stock *)

Section Stock.
Import Db ProductRepository.

Lemma update_stock_run (db : Db.t) (pid q : Z) :
  update_stock pid q db
  = (inr (Product.set_stock q <$> products db !! pid),
     with_products (alter (Product.set_stock q) pid) db).
Proof.
  unfold update_stock, bind, execute, get_by_id, query. simpl.
  by rewrite lookup_alter_eq.
Qed.

Lemma decrease_stock_run (db : Db.t) (pid q : Z) (p : Product.t) :
  products db !! pid = Some p ->
  decrease_stock pid q db
  = (inr (Some (Product.set_stock (Z.max 0 (Product.stock p - q)) p)),
     with_products (alter (Product.set_stock (Z.max 0 (Product.stock p - q))) pid) db).
Proof.
  intros Hp. unfold decrease_stock, bind, get_by_id, query. rewrite Hp.
  rewrite update_stock_run. by rewrite Hp.
Qed.

Lemma increase_stock_run (db : Db.t) (pid q : Z) (p : Product.t) :
  products db !! pid = Some p ->
  increase_stock pid q db
  = (inr (Some (Product.set_stock (Product.stock p + q) p)),
     with_products (alter (Product.set_stock (Product.stock p + q)) pid) db).
Proof.
  intros Hp. unfold increase_stock, bind, get_by_id, query. rewrite Hp.
  rewrite update_stock_run. by rewrite Hp.
Qed.

Lemma increase_stock_missing (db : Db.t) (pid q : Z) :
  products db !! pid = None ->
  increase_stock pid q db = (inr None, db).
Proof.
  intros Hp. unfold increase_stock, bind, get_by_id, query. by rewrite Hp.
Qed.

(** C6. For every existing product and every quantity, [decrease_stock]
    returns the product with stock [max(0, old stock - quantity)] and leaves
    that product in the table; the new stock is never negative, and no other
    product changes. *)
Theorem C6_decrease_stock_floors_at_zero (db : Db.t) (pid quantity : Z) (p : Product.t) :
  products db !! pid = Some p ->
  exists p' db',
    decrease_stock pid quantity db = (inr (Some p'), db')
    /\ Product.stock p' = Z.max 0 (Product.stock p - quantity)
    /\ 0 <= Product.stock p'
    /\ products db' !! pid = Some p'
    /\ (forall other, other ≠ pid -> products db' !! other = products db !! other).
Proof.
  intros Hp. eexists _, _. split; [by apply decrease_stock_run|].
  simpl. repeat split.
  - lia.
  - by rewrite lookup_alter_eq, Hp.
  - intros other Hne. by rewrite lookup_alter_ne.
Qed.

Lemma C6_decrease_stock_floors_at_zero_witness :
  exists p' db',
    decrease_stock 7 5 Sample.db = (inr (Some p'), db')
    /\ Product.stock p' = Z.max 0 (Product.stock Sample.lamp - 5)
    /\ 0 <= Product.stock p'
    /\ products db' !! 7 = Some p'
    /\ (forall other, other ≠ 7 -> products db' !! other = products Sample.db !! other).
Proof.
  apply (C6_decrease_stock_floors_at_zero Sample.db 7 5 Sample.lamp).
  reflexivity.
Defined.

End Stock.

(** ** Coupons *)

Section Coupons.
Import Coupon.

Lemma is_valid_false_iff (now : Z) (c : Coupon.t) :
  is_valid now c = false <-> invalid now c.
Proof.
  unfold is_valid, is_expired, invalid.
  destruct (is_active c), (expires_at c) as [e|]; simpl.
  - destruct (Z.ltb_spec e now); split; try done.
    + intros _. right. by exists e.
    + intros [?|(e' & [= <-] & ?)]; [done|lia].
  - split; [done|]. by intros [?|(e' & ? & ?)].
  - split; [by left|done].
  - split; [by left|done].
Qed.

Lemma Qltb_iff (x y : Q) : Qltb x y = true <-> (x < y)%Q.
Proof.
  unfold Qltb. rewrite negb_true_iff. split.
  - intros H. apply Qnot_le_lt. intros Hle.
    apply Qle_bool_iff in Hle. congruence.
  - intros H. destruct (Qle_bool y x) eqn:E; [|done].
    apply Qle_bool_iff in E. exfalso. by apply (Qlt_not_le x y).
Qed.

Lemma below_minimum_iff (c : Coupon.t) (amount : Q) :
  (0 <= amount)%Q ->
  below_minimum c amount = true <-> below c amount.
Proof.
  intros Hamount. unfold below_minimum, below.
  destruct (min_order_amount c) as [m|].
  - rewrite andb_true_iff, Qltb_iff, negb_true_iff. split.
    + intros [_ Hlt]. by exists m.
    + intros (m' & [= <-] & Hlt). split; [|done].
      destruct (Qeq_bool m 0) eqn:E; [|done].
      apply Qeq_bool_iff in E. rewrite E in Hlt.
      exfalso. by apply (Qlt_not_le amount 0).
  - split; [done|]. by intros (m & ? & _).
Qed.

Lemma calculate_discount_le (now : Z) (c : Coupon.t) (amount : Q) :
  (0 <= amount)%Q -> (calculate_discount now c amount <= amount)%Q.
Proof.
  intros Hamount. unfold calculate_discount.
  destruct (negb (is_valid now c)); [done|].
  destruct (below_minimum c amount); [done|].
  destruct (is_percentage c); apply Q.le_min_r.
Qed.



(** Twenty per cent of 50 is 10; under the minimum of 30 there is no
    discount. *)
Example calculate_discount_sample :
  (calculate_discount 1000 Sample.twenty_percent (50 # 1) == 10 # 1)%Q
  /\ calculate_discount 1000 Sample.twenty_percent (20 # 1) = 0%Q
  /\ calculate_discount 3000 Sample.twenty_percent (50 # 1) = 0%Q.
Proof. repeat split; reflexivity. Qed.

End Coupons.

(** ** The embedding formatter *)

Section Embedding.
Import Chunk.

(** C7 (the code departs from the claim). The formatter reads
    [self.file_path], and a chunk has a [path] field but no [file_path]
    attribute: for every chunk record [to_embedding] raises
    [AttributeError] and returns no string. *)
Theorem C7_to_embedding_raises (c : Chunk.t) :
  to_embedding c = inl (AttributeError "file_path").
Proof. reflexivity. Qed.

(** A chunk built with the defaults of the dataclass. *)
Example to_embedding_default_chunk :
  to_embedding Sample.chunk = inl (AttributeError "file_path").
Proof. reflexivity. Qed.

End Embedding.

(** ** File discovery *)

Section Discovery.
Import IngestRepo.

Lemma endswith_unfold (s ext : string) :
  endswith s ext
  = if String.eqb s ext then true
    else match s with
         | EmptyString => false
         | String _ s' => endswith s' ext
         end.
Proof. by destruct s. Qed.

Lemma endswith_iff (s ext : string) :
  endswith s ext = true <-> has_suffix s ext.
Proof.
  unfold has_suffix. split.
  - induction s as [|a s IH]; rewrite endswith_unfold.
    + destruct (String.eqb_spec EmptyString ext) as [<-|]; [|done].
      intros _. by exists EmptyString.
    + destruct (String.eqb_spec (String a s) ext) as [<-|_].
      * intros _. by exists EmptyString.
      * intros H. destruct (IH H) as [pre ->]. by exists (String a pre).
  - intros [pre ->]. induction pre as [|a pre IH]; rewrite endswith_unfold.
    + by rewrite String.eqb_refl.
    + change (String a pre +:+ ext) with (String a (pre +:+ ext)).
      cbv beta iota. rewrite IH. by destruct (String.eqb _ _).
Qed.

Lemma supported_iff (file : string) :
  supported file = true
  <-> has_suffix file ".js" \/ has_suffix file ".md"
      \/ has_suffix file ".yml" \/ has_suffix file "yaml".
Proof.
  unfold supported, SUPORTED_EXT. simpl.
  rewrite !orb_true_iff, !endswith_iff. intuition discriminate.
Qed.

Lemma in_get_file (path : string) (fs : Dir) (p : string) :
  In p (get_file path fs)
  <-> exists root filenames file,
        In (root, filenames) (walk path fs) /\ In file filenames
        /\ supported file = true /\ p = path_join root file.
Proof.
  unfold get_file. rewrite in_flat_map. split.
  - intros ([root filenames] & Hwalk & Hin).
    apply in_map_iff in Hin as (file & <- & Hfile).
    rewrite <- list_elem_of_In, list_elem_of_filter, list_elem_of_In in Hfile.
    destruct Hfile as [Hsup Hfile]. by exists root, filenames, file.
  - intros (root & filenames & file & Hwalk & Hfile & Hsup & ->).
    exists (root, filenames). split; [done|].
    apply in_map. by rewrite <- list_elem_of_In, list_elem_of_filter, list_elem_of_In.
Qed.



End Discovery.

(** ** Category depth *)

Section Depth.
Import Category.
Variable categories : gmap Z Category.t.
Hypothesis Hclosed : closed categories.

Lemma level_loop_total (k : nat) :
  forall (level : Z) (cur : Category.t) (id : Z),
    categories !! id = Some cur ->
    0 <= level <= 10 -> 11 - level <= Z.of_nat k ->
    exists n, level <= n <= 11
      /\ forall fuel, (k <= fuel)%nat ->
           level_loop fuel categories level (Some cur) = Some (inr n).
Proof.
  induction k as [|k IH]; intros level cur id Hcur Hlevel Hk; [lia|].
  destruct (parent_id cur) as [pid|] eqn:Hparent.
  - destruct (Hclosed id cur pid Hcur Hparent) as [parent Hpid].
    destruct (Z.ltb_spec 10 (level + 1)) as [Hcap|Hcap].
    + exists (level + 1). split; [lia|].
      intros [|fuel] Hfuel; [lia|]. simpl. rewrite Hparent.
      destruct (Z.ltb_spec 10 (level + 1)); [done|lia].
    + destruct (IH (level + 1) parent pid Hpid) as (n & Hn & Hrun); [lia|lia|].
      exists n. split; [lia|].
      intros [|fuel] Hfuel; [lia|]. simpl. rewrite Hparent, Hpid.
      destruct (Z.ltb_spec 10 (level + 1)); [lia|].
      apply Hrun. lia.
  - exists level. split; [lia|].
    intros [|fuel] Hfuel; [lia|]. simpl. by rewrite Hparent.
Qed.

Lemma full_path_loop_total (k : nat) :
  forall (path : list string) (cur : Category.t) (id : Z),
    categories !! id = Some cur ->
    (1 <= length path <= 10)%nat -> (11 - length path <= k)%nat ->
    exists parts, (length path <= length parts <= 11)%nat
      /\ forall fuel, (k <= fuel)%nat ->
           full_path_loop fuel categories path cur = Some (inr parts).
Proof.
  induction k as [|k IH]; intros path cur id Hcur Hlen Hk; [lia|].
  destruct (parent_id cur) as [pid|] eqn:Hparent.
  - destruct (Hclosed id cur pid Hcur Hparent) as [parent Hpid].
    destruct (Z.ltb_spec 10 (Z.of_nat (length (name parent :: path)))) as [Hcap|Hcap].
    + exists (name parent :: path). split; [simpl in *; lia|].
      intros [|fuel] Hfuel; [lia|]. cbn [full_path_loop]. rewrite Hparent, Hpid.
      destruct (Z.ltb_spec 10 (Z.of_nat (length (name parent :: path)))); [done|lia].
    + destruct (IH (name parent :: path) parent pid Hpid) as (parts & Hparts & Hrun);
        [simpl in *; lia|simpl in *; lia|].
      exists parts. split; [simpl in *; lia|].
      intros [|fuel] Hfuel; [lia|]. cbn [full_path_loop]. rewrite Hparent, Hpid.
      destruct (Z.ltb_spec 10 (Z.of_nat (length (name parent :: path)))); [lia|].
      apply Hrun. lia.
  - exists path. split; [lia|].
    intros [|fuel] Hfuel; [lia|]. cbn [full_path_loop]. by rewrite Hparent.
Qed.


End Depth.

Lemma cyclic_closed : Category.closed Sample.cyclic.
Proof.
  intros id c pid Hc Hp. unfold Sample.cyclic in *.
  apply lookup_singleton_Some in Hc as [<- <-].
  injection Hp as <-. by exists Sample.looped.
Qed.



(** ** Cart lines *)

Section CartLines.
Import Db CartItemRepository.

Lemma fold_left_Qplus (l : list Q) (a : Q) :
  (fold_left Qplus l a == a + fold_left Qplus l 0)%Q.
Proof.
  revert a. induction l as [|x l IH]; intros a; simpl.
  - ring.
  - rewrite (IH (a + x)%Q), (IH (0 + x)%Q). ring.
Qed.

Lemma py_sum_cons (x : Q) (l : list Q) :
  (Cart.py_sum (x :: l) == x + Cart.py_sum l)%Q.
Proof. unfold Cart.py_sum. simpl. rewrite fold_left_Qplus. ring. Qed.

Lemma py_sum_app (l1 l2 : list Q) :
  (Cart.py_sum (l1 ++ l2) == Cart.py_sum l1 + Cart.py_sum l2)%Q.
Proof.
  induction l1 as [|x l1 IH].
  - unfold Cart.py_sum at 2. simpl. ring.
  - change ((x :: l1) ++ l2)%list with (x :: (l1 ++ l2))%list.
    rewrite !py_sum_cons, IH. ring.
Qed.

Lemma subtotal_py_sum (row : Cart.t) (its : list CartItem.t) :
  Cart.subtotal {| Cart.row := row; Cart.items := its |}
  = Cart.py_sum (map CartItem.subtotal its).
Proof. by destruct its. Qed.

Lemma upd_id (a q : Z) (i : CartItem.t) : CartItem.id (upd a q i) = CartItem.id i.
Proof. unfold upd. by destruct (decide _). Qed.

Lemma upd_key (a q : Z) (i : CartItem.t) : key (upd a q i) = key i.
Proof. unfold upd. by destruct (decide _). Qed.

Lemma upd_cart_id (a q : Z) (i : CartItem.t) :
  CartItem.cart_id (upd a q i) = CartItem.cart_id i.
Proof. unfold upd. by destruct (decide _). Qed.

Lemma upd_product_id (a q : Z) (i : CartItem.t) :
  CartItem.product_id (upd a q i) = CartItem.product_id i.
Proof. unfold upd. by destruct (decide _). Qed.

Lemma upd_hit (q : Z) (i : CartItem.t) :
  upd (CartItem.id i) q i = CartItem.set_quantity q i.
Proof. unfold upd. by rewrite decide_True. Qed.

Lemma fmap_upd_id (a q : Z) (l : list CartItem.t) :
  CartItem.id <$> (upd a q <$> l) = CartItem.id <$> l.
Proof.
  rewrite <- list_fmap_compose. apply list_fmap_ext. intros _ i _. apply upd_id.
Qed.

Lemma fmap_upd_key (a q : Z) (l : list CartItem.t) :
  key <$> (upd a q <$> l) = key <$> l.
Proof.
  rewrite <- list_fmap_compose. apply list_fmap_ext. intros _ i _. apply upd_key.
Qed.

Lemma fmap_upd_miss (a q : Z) (l : list CartItem.t) :
  a ∉ CartItem.id <$> l -> upd a q <$> l = l.
Proof.
  induction l as [|i l IH]; [done|]. rewrite fmap_cons, not_elem_of_cons.
  intros [Hne Hnot]. rewrite fmap_cons, IH by done.
  unfold upd. by rewrite decide_False.
Qed.

Lemma filter_fmap_upd (P : CartItem.t -> Prop) `{!forall i, Decision (P i)}
    (a q : Z) (l : list CartItem.t) :
  (forall i, P (upd a q i) <-> P i) ->
  filter P (upd a q <$> l) = upd a q <$> filter P l.
Proof.
  intros HP. induction l as [|i l IH]; [done|].
  rewrite fmap_cons, !filter_cons, IH.
  destruct (decide (P (upd a q i))) as [Hu|Hu], (decide (P i)) as [Hi|Hi];
    try done; exfalso; [by apply Hi, HP|by apply Hu, HP].
Qed.

(** A row is found by a key that no other row has. *)
Lemma filter_unique_key {K} `{EqDecision K} (f : CartItem.t -> K)
    (l : list CartItem.t) (x : CartItem.t) :
  NoDup (f <$> l) -> x ∈ l -> filter (fun i => f i = f x) l = [x].
Proof.
  induction l as [|i l IH]; [by intros _ ?%elem_of_nil|].
  rewrite fmap_cons, NoDup_cons. intros [Hnot Hnodup] Hx.
  rewrite filter_cons. apply elem_of_cons in Hx as [->|Hx].
  - rewrite decide_True by done. f_equal.
    destruct (filter _ l) as [|y ?] eqn:Hf; [done|]. exfalso.
    assert (y ∈ filter (fun i0 => f i0 = f i) l) as Hy by (rewrite Hf; left).
    apply list_elem_of_filter in Hy as [Hy1 Hy2].
    apply Hnot. rewrite <- Hy1. by apply list_elem_of_fmap_2.
  - rewrite decide_False; [by apply IH|].
    intros Heq. apply Hnot. rewrite Heq. by apply list_elem_of_fmap_2.
Qed.

Lemma filter_absent_key {K} `{EqDecision K} (f : CartItem.t -> K)
    (l : list CartItem.t) (k : K) :
  k ∉ f <$> l -> filter (fun i => f i = k) l = [].
Proof.
  intros Hnot. destruct (filter _ l) as [|y ?] eqn:Hf; [done|]. exfalso.
  assert (y ∈ filter (fun i => f i = k) l) as Hy by (rewrite Hf; left).
  apply list_elem_of_filter in Hy as [<- Hy2].
  apply Hnot. by apply list_elem_of_fmap_2.
Qed.

Lemma lines_key (c p : Z) (db : Db.t) :
  lines c p db = filter (fun i => key i = (c, p)) (cart_items db).
Proof.
  unfold lines, key. apply list_filter_iff. intros i. split.
  - by intros [-> ->].
  - by intros [= -> ->].
Qed.

(** Under the uniqueness constraint a cart has no line for a product, or
    exactly one. *)
Lemma lines_none_or_one (c p : Z) (db : Db.t) :
  one_line_per_product db ->
  (lines c p db = [] /\ (c, p) ∉ key <$> cart_items db)
  \/ exists x, lines c p db = [x] /\ x ∈ cart_items db /\ key x = (c, p).
Proof.
  intros Hone. rewrite lines_key.
  destruct (decide ((c, p) ∈ key <$> cart_items db)) as [Hin|Hnot].
  - right. apply list_elem_of_fmap in Hin as (x & Hk & Hx). exists x.
    rewrite Hk. by rewrite (filter_unique_key key _ x).
  - left. by rewrite (filter_absent_key key).
Qed.

Lemma NoDup_fmap_filter {K} (f : CartItem.t -> K) (P : CartItem.t -> Prop)
    `{!forall i, Decision (P i)} (l : list CartItem.t) :
  NoDup (f <$> l) -> NoDup (f <$> filter P l).
Proof.
  induction l as [|i l IH]; [done|].
  rewrite fmap_cons, NoDup_cons, filter_cons. intros [Hnot Hnodup].
  destruct (decide (P i)); [|by apply IH].
  rewrite fmap_cons, NoDup_cons. split; [|by apply IH].
  intros (y & Hy & Hin)%list_elem_of_fmap.
  apply list_elem_of_filter in Hin as [_ Hin].
  apply Hnot. rewrite Hy. by apply list_elem_of_fmap_2.
Qed.

Lemma subtotal_set_quantity (x : CartItem.t) (q : Z) :
  (CartItem.subtotal (CartItem.set_quantity (CartItem.quantity x + q) x)
   == CartItem.subtotal x + CartItem.price x * inject_Z q)%Q.
Proof. unfold CartItem.subtotal. simpl. rewrite inject_Z_plus. ring. Qed.

Lemma py_sum_upd (l : list CartItem.t) (x : CartItem.t) (q : Z) :
  NoDup (CartItem.id <$> l) -> x ∈ l ->
  (Cart.py_sum (map CartItem.subtotal
                  (upd (CartItem.id x) (CartItem.quantity x + q) <$> l))
   == Cart.py_sum (map CartItem.subtotal l) + CartItem.price x * inject_Z q)%Q.
Proof.
  induction l as [|i l IH]; [by intros _ ?%elem_of_nil|].
  rewrite fmap_cons, NoDup_cons. intros [Hnot Hnodup] Hx.
  rewrite fmap_cons. cbn [map]. rewrite !py_sum_cons.
  apply elem_of_cons in Hx as [->|Hx].
  - rewrite upd_hit, fmap_upd_miss by done.
    rewrite subtotal_set_quantity. ring.
  - rewrite IH by done. unfold upd at 1. rewrite decide_False; [ring|].
    intros Heq. apply Hnot. rewrite Heq. by apply list_elem_of_fmap_2.
Qed.

Lemma add_item_new (db : Db.t) (c p q : Z) (price : Q) :
  lines c p db = [] ->
  add_item c p q price db
  = (inr (Some {| CartItem.id := cart_items_seq db; CartItem.cart_id := c;
                  CartItem.product_id := p; CartItem.quantity := q;
                  CartItem.price := price |}),
     with_cart_items
       (fun rows => rows ++ [{| CartItem.id := cart_items_seq db;
                                CartItem.cart_id := c; CartItem.product_id := p;
                                CartItem.quantity := q; CartItem.price := price |}])%list
       (cart_items_seq db + 1) db).
Proof.
  intros Hlines. unfold add_item, get_by_cart_and_product, bind, query, lift.
  fold (lines c p db). by rewrite Hlines.
Qed.

Lemma add_item_existing (db : Db.t) (c p q : Z) (price : Q) (x : CartItem.t) :
  primary_key_ok db -> lines c p db = [x] -> x ∈ cart_items db ->
  add_item c p q price db
  = (inr (Some (CartItem.set_quantity (CartItem.quantity x + q) x)),
     with_cart_items (fmap (upd (CartItem.id x) (CartItem.quantity x + q)))
       (cart_items_seq db) db).
Proof.
  intros [Hnodup _] Hlines Hx.
  unfold add_item, get_by_cart_and_product, bind, query, lift.
  fold (lines c p db). rewrite Hlines. simpl.
  unfold update_quantity, bind, execute, get_by_id, bind, query, lift. simpl.
  rewrite filter_fmap_upd by (intros i; by rewrite upd_id).
  rewrite (filter_unique_key CartItem.id _ x) by done.
  simpl. by rewrite upd_hit.
Qed.

(** One call of [add_item] on a table that satisfies its constraints. *)
Lemma add_item_spec (db : Db.t) (c p q : Z) (price : Q) :
  primary_key_ok db -> one_line_per_product db ->
  exists item db',
    add_item c p q price db = (inr (Some item), db')
    /\ (forall x, lines c p db = [x] ->
          item = CartItem.set_quantity (CartItem.quantity x + q) x
          /\ cart_items db'
             = upd (CartItem.id x) (CartItem.quantity x + q) <$> cart_items db)
    /\ (lines c p db = [] ->
          item = {| CartItem.id := cart_items_seq db; CartItem.cart_id := c;
                    CartItem.product_id := p; CartItem.quantity := q;
                    CartItem.price := price |}
          /\ cart_items db' = (cart_items db ++ [item])%list)
    /\ lines c p db' = [item]
    /\ primary_key_ok db' /\ one_line_per_product db'
    /\ (forall row,
          Cart.subtotal {| Cart.row := row; Cart.items := CartRepository.items_of c db' |}
          == Cart.subtotal {| Cart.row := row; Cart.items := CartRepository.items_of c db |}
             + CartItem.price item * inject_Z q)%Q.
Proof.
  intros Hpk Hone.
  destruct (lines_none_or_one c p db Hone) as [[Hlines Hnot]|(x & Hlines & Hx & Hkey)].
  - eexists _, _. split; [by apply add_item_new|].
    destruct Hpk as [Hnodup Hbelow]. unfold primary_key_ok, one_line_per_product.
    split; [intros x Hx; congruence|]. split; [done|]. cbn.
    split; [|split; [split|split]].
    + unfold lines. cbn. rewrite filter_app. fold (lines c p db). rewrite Hlines.
      rewrite filter_cons, decide_True by done. done.
    + rewrite fmap_app. apply NoDup_app. split; [done|]. split; [|apply NoDup_singleton].
      intros i Hi. cbn. rewrite list_elem_of_singleton. intros ->.
      apply list_elem_of_fmap in Hi as (y & Hy & Hin).
      rewrite Forall_forall in Hbelow. specialize (Hbelow y Hin). lia.
    + apply Forall_app. split.
      * eapply Forall_impl; [exact Hbelow|]. cbn. intros; lia.
      * apply Forall_singleton. cbn. lia.
    + rewrite fmap_app. apply NoDup_app. split; [done|]. split; [|apply NoDup_singleton].
      intros k Hk. cbn. rewrite list_elem_of_singleton. by intros ->.
    + intros row. rewrite !subtotal_py_sum. unfold CartRepository.items_of. cbn.
      rewrite filter_app, filter_cons, decide_True by done.
      rewrite map_app, py_sum_app. unfold Cart.py_sum, CartItem.subtotal. cbn. ring.
  - injection Hkey as Hc Hp.
    eexists _, _. split; [by apply add_item_existing|].
    split; [intros y Hy; rewrite Hlines in Hy; by injection Hy as <-|].
    split; [intros Hnil; congruence|].
    destruct Hpk as [Hnodup Hbelow]. unfold primary_key_ok, one_line_per_product. cbn.
    split; [|split; [split|split]].
    + unfold lines. cbn. rewrite filter_fmap_upd.
      * fold (lines c p db). rewrite Hlines. cbn. by rewrite upd_hit.
      * intros i. by rewrite upd_cart_id, upd_product_id.
    + by rewrite fmap_upd_id.
    + apply Forall_fmap. eapply Forall_impl; [exact Hbelow|].
      intros i Hi. cbn. by rewrite upd_id.
    + by rewrite fmap_upd_key.
    + intros row. rewrite !subtotal_py_sum. unfold CartRepository.items_of. cbn.
      rewrite filter_fmap_upd by (intros i; by rewrite upd_cart_id).
      apply py_sum_upd.
      * by apply NoDup_fmap_filter.
      * by apply list_elem_of_filter.
Qed.

(** Two calls in a row for a product that the cart does not hold yet. *)
Lemma add_item_twice (db : Db.t) (c p q1 q2 : Z) (price1 price2 : Q) :
  primary_key_ok db -> one_line_per_product db -> lines c p db = [] ->
  exists first db1 item db2,
    add_item c p q1 price1 db = (inr (Some first), db1)
    /\ add_item c p q2 price2 db1 = (inr (Some item), db2)
    /\ lines c p db2 = [item]
    /\ CartItem.quantity item = q1 + q2
    /\ CartItem.price item = price1
    /\ (CartRepository.items_of c db = [] ->
        forall row,
          Cart.subtotal {| Cart.row := row; Cart.items := CartRepository.items_of c db2 |}
          == price1 * inject_Z (q1 + q2))%Q.
Proof.
  intros Hpk Hone Hlines.
  destruct (add_item_spec db c p q1 price1 Hpk Hone)
    as (first & db1 & Hrun1 & _ & Hnew & Hlines1 & Hpk1 & Hone1 & Hsub1).
  destruct (Hnew Hlines) as [Hfirst _].
  destruct (add_item_spec db1 c p q2 price2 Hpk1 Hone1)
    as (item & db2 & Hrun2 & Hold & _ & Hlines2 & _ & _ & Hsub2).
  destruct (Hold first Hlines1) as [Hitem _].
  exists first, db1, item, db2. repeat split; try done.
  - by rewrite Hitem, Hfirst.
  - by rewrite Hitem, Hfirst.
  - intros Hempty row. rewrite (Hsub2 row), (Hsub1 row), Hempty.
    rewrite Hitem at 1. rewrite Hfirst. cbn. rewrite inject_Z_plus. ring.
Qed.


Lemma sample_primary_key_ok : primary_key_ok Sample.db.
Proof. split; by apply (bool_decide_unpack _). Qed.

Lemma sample_one_line_per_product : one_line_per_product Sample.db.
Proof. by apply (bool_decide_unpack _). Qed.


(** The cart of the sample holds two lamps at 10; three more at a new price
    of 12 make five at 10. *)
Example add_item_sample :
  fst (add_item 1 7 3 (12 # 1) Sample.db)
  = inr (Some {| CartItem.id := 1; CartItem.cart_id := 1; CartItem.product_id := 7;
                 CartItem.quantity := 5; CartItem.price := 10 # 1 |}).
Proof. reflexivity. Qed.

End CartLines.

(** ** Orders *)

Section Orders.
Import Db OrderService.

Lemma get_by_user_id_run (db : Db.t) (user_id : Z) (row : Cart.t) :
  filter (fun c => Cart.user_id c = user_id) (carts db) = [row] ->
  CartRepository.get_by_user_id user_id db
  = (inr (Some {| Cart.row := row;
                  Cart.items := CartRepository.items_of (Cart.id row) db |}), db).
Proof.
  intros Hrows. unfold CartRepository.get_by_user_id, bind, query, lift.
  by rewrite Hrows.
Qed.

(** One pass of the availability loop reads the database and leaves it as
    it is. *)
Lemma check_line_run (db : Db.t) (x : CartItem.t) :
  (unavailable db x
   /\ exists detail,
        check_line x db = (inl (HTTPException HTTP_400_BAD_REQUEST detail), db))
  \/ (~ unavailable db x /\ check_line x db = (inr tt, db)).
Proof.
  unfold unavailable, check_line, bind, ProductRepository.get_by_id, query.
  destruct (products db !! CartItem.product_id x) as [product|]; cbn.
  - destruct (Product.is_active product); cbn.
    + destruct (Z.ltb_spec (Product.stock product) (CartItem.quantity x)).
      * left. split; [by right|]. by eexists.
      * right. split; [|done]. intros [?|?]; [done|lia].
    + left. split; [by left|]. by eexists.
  - left. split; [done|]. by eexists.
Qed.

Lemma check_lines_reject (db : Db.t) (items : list CartItem.t) (bad : CartItem.t) :
  bad ∈ items -> unavailable db bad ->
  exists detail,
    for_each items check_line db
    = (inl (HTTPException HTTP_400_BAD_REQUEST detail), db).
Proof.
  intros Hbad Hun. induction items as [|x items IH]; [by apply elem_of_nil in Hbad|].
  cbn [for_each]. unfold bind.
  destruct (check_line_run db x) as [(_ & detail & ->)|[Hok ->]].
  - by exists detail.
  - apply elem_of_cons in Hbad as [<-|Hbad]; [done|]. by apply IH.
Qed.

(** C2. When the user's cart holds a line whose product is missing,
    inactive, or has less stock than the line's quantity,
    [create_order_from_cart] raises [HTTPException] with status 400 and the
    database it leaves is the one it started from: product stocks, cart
    lines, orders and order items are all as before. *)
Theorem C2_create_order_rejects_unavailable_line (db : Db.t) (now user_id : Z)
    (order_data : OrderFromCart) (row : Cart.t) (bad : CartItem.t) :
  filter (fun c => Cart.user_id c = user_id) (carts db) = [row] ->
  bad ∈ CartRepository.items_of (Cart.id row) db ->
  unavailable db bad ->
  exists detail db',
    create_order_from_cart now user_id order_data db
    = (inl (HTTPException HTTP_400_BAD_REQUEST detail), db')
    /\ db' = db
    /\ products db' = products db
    /\ cart_items db' = cart_items db
    /\ orders db' = orders db
    /\ order_items db' = order_items db.
Proof.
  intros Hrow Hbad Hun.
  destruct (check_lines_reject db _ bad Hbad Hun) as [detail Hloop].
  exists detail, db. split; [|done].
  unfold create_order_from_cart, bind at 1.
  rewrite (get_by_user_id_run db user_id row Hrow).
  unfold Cart.is_empty. cbn [Cart.items].
  destruct (CartRepository.items_of (Cart.id row) db) as [|x items] eqn:Hitems;
    [by apply elem_of_nil in Hbad|].
  cbn [length Nat.eqb]. unfold bind at 1. by rewrite Hloop.
Qed.

Lemma C2_create_order_rejects_unavailable_line_witness :
  exists detail db',
    create_order_from_cart 1000 42 Sample.checkout Sample.db
    = (inl (HTTPException HTTP_400_BAD_REQUEST detail), db')
    /\ db' = Sample.db
    /\ products db' = products Sample.db
    /\ cart_items db' = cart_items Sample.db
    /\ orders db' = orders Sample.db
    /\ order_items db' = order_items Sample.db.
Proof.
  apply (C2_create_order_rejects_unavailable_line Sample.db 1000 42 Sample.checkout
           Sample.the_cart Sample.desk_line).
  - reflexivity.
  - change (Sample.desk_line ∈ [Sample.lamp_line; Sample.desk_line]).
    repeat constructor.
  - right. reflexivity.
Defined.

(** The order of the sample is refused for the desks and nothing moves. *)
Example create_order_sample :
  create_order_from_cart 1000 42 Sample.checkout Sample.db
  = (inl (HTTPException 400 "Stock insuffisant pour desk"), Sample.db).
Proof. reflexivity. Qed.

Lemma add_stock_add_stock (a b : Z) (p : Product.t) :
  Product.add_stock a (Product.add_stock b p) = Product.add_stock (b + a) p.
Proof. unfold Product.add_stock, Product.set_stock. cbn. f_equal. lia. Qed.

Lemma add_stock_zero (p : Product.t) : Product.add_stock 0 p = p.
Proof.
  unfold Product.add_stock, Product.set_stock. destruct p. cbn. f_equal. lia.
Qed.

(** [increase_stock] never raises, and adds to the stock of the product if
    there is one. *)
Lemma increase_stock_alter (db : Db.t) (pid q : Z) :
  exists r,
    ProductRepository.increase_stock pid q db
    = (inr r, with_products (alter (Product.add_stock q) pid) db).
Proof.
  destruct (products db !! pid) as [p|] eqn:Hp.
  - eexists. rewrite (increase_stock_run db pid q p Hp). f_equal.
    unfold with_products. f_equal. apply alter_ext.
    intros p' Hp'. rewrite Hp in Hp'. by injection Hp' as <-.
  - exists None. rewrite (increase_stock_missing db pid q Hp). f_equal.
    unfold with_products. rewrite (alter_id' _ _ _ Hp). by destruct db.
Qed.

(** The stock-restoring loop of [cancel_order]. *)
Lemma restore_loop (items : list OrderItem.t) :
  forall db : Db.t,
  exists m,
    for_each items (fun item =>
      run ProductRepository.increase_stock
            (OrderItem.product_id item) (OrderItem.quantity item) in
      ret tt) db
    = (inr tt, with_products (fun _ => m) db)
    /\ forall pid, m !! pid = Product.add_stock (ordered pid items) <$> products db !! pid.
Proof.
  induction items as [|item items IH]; intros db.
  - exists (products db). split; [by destruct db|].
    intros pid. cbn. destruct (products db !! pid); cbn; [|done].
    by rewrite add_stock_zero.
  - cbn [for_each]. unfold bind at 1 2.
    destruct (increase_stock_alter db (OrderItem.product_id item)
                (OrderItem.quantity item)) as [r ->].
    cbn. destruct (IH (with_products
                         (alter (Product.add_stock (OrderItem.quantity item))
                                (OrderItem.product_id item)) db))
      as (m & -> & Hm).
    exists m. split; [done|]. intros pid. rewrite Hm. cbn.
    destruct (decide (OrderItem.product_id item = pid)) as [<-|Hne].
    + rewrite lookup_alter_eq. destruct (products db !! _); cbn; [|done].
      by rewrite add_stock_add_stock.
    + rewrite lookup_alter_ne by done. by rewrite Z.add_0_l.
Qed.

Lemma ordered_absent (pid : Z) (items : list OrderItem.t) :
  pid ∉ OrderItem.product_id <$> items -> ordered pid items = 0.
Proof.
  induction items as [|i items IH]; [done|].
  rewrite fmap_cons, not_elem_of_cons. intros [Hne Hnot]. cbn.
  rewrite decide_False by done. rewrite IH by done. lia.
Qed.

Lemma ordered_unique (item : OrderItem.t) (items : list OrderItem.t) :
  NoDup (OrderItem.product_id <$> items) -> item ∈ items ->
  ordered (OrderItem.product_id item) items = OrderItem.quantity item.
Proof.
  induction items as [|i items IH]; [by intros _ ?%elem_of_nil|].
  rewrite fmap_cons, NoDup_cons. intros [Hnot Hnodup] Hin. cbn.
  apply elem_of_cons in Hin as [->|Hin].
  - rewrite decide_True by done. rewrite ordered_absent by done. lia.
  - rewrite decide_False; [rewrite IH by done; lia|].
    intros Heq. apply Hnot. rewrite Heq. by apply list_elem_of_fmap_2.
Qed.

Lemma can_be_cancelled_iff (o : Order.t) :
  Order.can_be_cancelled o = true
  <-> Order.status o = OrderStatus.PENDING \/ Order.status o = OrderStatus.PAID.
Proof.
  unfold Order.can_be_cancelled. rewrite bool_decide_eq_true.
  rewrite !elem_of_cons, elem_of_nil. tauto.
Qed.

Lemma get_order_by_id_run (db : Db.t) (order_id : Z) (user_id : option Z) (o : Order.t) :
  orders db !! order_id = Some o -> may_access user_id o ->
  get_order_by_id order_id user_id db
  = (inr {| Order.id := order_id; Order.row := o;
            Order.items := OrderRepository.items_of order_id db |}, db).
Proof.
  intros Ho Hacc.
  unfold get_order_by_id, OrderRepository.get_by_id_with_details,
    OrderRepository.get_by_id, bind, query. rewrite Ho. cbn.
  unfold may_access in Hacc. destruct (user_id_truthy user_id) as [u|]; [|done].
  by rewrite bool_decide_eq_false_2 by (intros Hne; by apply Hne).
Qed.



(** Cancelling the paid order of the sample puts two lamps and three desks
    back; the shipped order cannot be cancelled. *)
Example cancel_order_sample :
  (let db' := snd (cancel_order 5 (Some 42) Sample.db) in
   Product.stock <$> products db' !! 7 = Some 5
   /\ Product.stock <$> products db' !! 8 = Some 4
   /\ Order.status <$> orders db' !! 5 = Some OrderStatus.CANCELLED)
  /\ cancel_order 6 (Some 42) Sample.db
     = (inl (HTTPException 400 "Cette commande ne peut plus être annulée"), Sample.db).
Proof. repeat split; reflexivity. Qed.

End Orders.

(** ** Payments *)

Section Payments.
Import Db PaymentService.

Lemma process_payment_run (db : Db.t) (now pid : Z) (reference : option string)
    (p : Payment.t) :
  payments db !! pid = Some p ->
  process_payment now pid reference db
  = (inr (Some (PaymentRepository.set_success reference now p)),
     with_orders (alter (Order.set_status OrderStatus.PAID) (Payment.order_id p))
       (orders_seq db)
       (with_payments (alter (PaymentRepository.set_success reference now) pid) db)).
Proof.
  intros Hp.
  unfold process_payment, PaymentRepository.mark_as_success,
    PaymentRepository.get_by_id, OrderRepository.update_status,
    OrderRepository.get_by_id, bind, execute, query.
  rewrite Hp. cbn. by rewrite lookup_alter_eq, Hp.
Qed.

Lemma filter_only {A} (P : A -> Prop) `{!forall x, Decision (P x)} (l : list A) (x : A) :
  NoDup l -> x ∈ l -> P x -> (forall y, y ∈ l -> P y -> y = x) ->
  filter P l = [x].
Proof.
  induction l as [|a l IH]; [by intros _ ?%elem_of_nil|].
  rewrite NoDup_cons. intros [Hnot Hnodup] Hx HP Huniq.
  rewrite filter_cons. apply elem_of_cons in Hx as [->|Hx].
  - rewrite decide_True by done. f_equal.
    destruct (filter P l) as [|y ?] eqn:Hf; [done|]. exfalso.
    assert (y ∈ filter P l) as Hy by (rewrite Hf; left).
    apply list_elem_of_filter in Hy as [Hy1 Hy2].
    apply Hnot. rewrite <- (Huniq y); [done|by right|done].
  - rewrite decide_False.
    + apply IH; try done. intros y Hy. apply Huniq. by right.
    + intros Ha. apply Hnot. rewrite (Huniq a); [done|by left|done].
Qed.

Lemma get_by_transaction_reference_run (db : Db.t) (pid : Z) (p : Payment.t)
    (r : string) :
  payments db !! pid = Some p ->
  Payment.transaction_reference p = Some r ->
  (forall pid' p', payments db !! pid' = Some p' ->
                   Payment.transaction_reference p' = Some r -> pid' = pid) ->
  PaymentRepository.get_by_transaction_reference (Some r) db
  = (inr (Some (pid, p)), db).
Proof.
  intros Hp Hr Huniq.
  unfold PaymentRepository.get_by_transaction_reference, bind, query, lift.
  rewrite (filter_only _ _ (pid, p)); [done|apply NoDup_map_to_list|..].
  - by apply elem_of_map_to_list.
  - done.
  - intros [pid' p'] Hin Hr'. apply elem_of_map_to_list in Hin.
    cbn in Hr'. pose proof (Huniq pid' p' Hin Hr') as ->.
    rewrite Hp in Hin. by injection Hin as <-.
Qed.

Lemma webhook_succeeded_run (db : Db.t) (now pid : Z) (p : Payment.t) (r : string) :
  PaymentRepository.get_by_transaction_reference (Some r) db
  = (inr (Some (pid, p)), db) ->
  process_stripe_webhook now (succeeded_event r) db
  = process_payment now pid (Some r) db.
Proof.
  intros Hfind. unfold process_stripe_webhook, succeeded_event.
  unfold bind at 1. cbn [lift Json.get Json.assoc String.eqb Ascii.eqb Bool.eqb].
  cbn [is_event String.eqb Ascii.eqb Bool.eqb].
  unfold bind at 1. unfold payment_intent_id_of, bind, lift. cbn.
  unfold PaymentRepository.get_by_transaction_reference, bind, query, lift in Hfind.
  destruct (scalar_one_or_none _) as [e|found]; [done|].
  by injection Hfind as ->.
Qed.



(** The refunded payment of the sample comes back as successful when the
    event is replayed. *)
Example replayed_webhook_sample :
  fst (process_stripe_webhook 2000 (succeeded_event "pi_1") Sample.db)
  = inr (Some {| Payment.order_id := 5; Payment.status := PaymentStatus.SUCCESS;
                 Payment.amount := 119 # 1;
                 Payment.transaction_reference := Some "pi_1";
                 Payment.paid_at := Some 2000 |}).
Proof. reflexivity. Qed.

End Payments.

(** * Further properties *)

(** ** Tokens and the current user *)

Section MoreTokens.
Import Security CurrentUser.
Variables (settings : Settings) (now : Z).

Lemma refresh_token_type (data : gmap string Claim) (delta : option Z) :
  jwt_claims (create_refresh_token settings now data delta) !! "type"
  = Some (CStr "refresh").
Proof. unfold create_refresh_token, jwt_encode. simpl. apply lookup_insert_eq. Qed.

Lemma decode_token_cases (t : Z) (token : JWT) :
  decode_token settings t token = inr (jwt_claims token)
  \/ decode_token settings t token
     = inl (HTTPException HTTP_401_UNAUTHORIZED "Token invalide ou expiré").
Proof.
  unfold decode_token, jwt_decode.
  destruct (_ && _ && _); [by left|by right].
Qed.

Lemma decode_access_token_at (data : gmap string Claim) (d t : Z) :
  d ≠ 0 ->
  decode_token settings t (create_access_token settings now data (Some d))
  = if t <=? now + d
    then inr (jwt_claims (create_access_token settings now data (Some d)))
    else inl (HTTPException HTTP_401_UNAUTHORIZED "Token invalide ou expiré").
Proof.
  intros Hd. unfold decode_token, jwt_decode, jwt_expired.
  rewrite access_token_exp by done.
  unfold create_access_token at 1 2, jwt_encode. cbn [jwt_key jwt_alg].
  rewrite !bool_decide_eq_true_2; [|set_solver|done]. cbn [andb].
  destruct (Z.ltb_spec (now + d) t), (Z.leb_spec t (now + d)); try lia; done.
Qed.

(** X1. A token made by [create_access_token] with a lifetime decodes, at
    any time up to its expiry, to the caller's claims with [exp], [iat] and
    [type] set by the creator: every other claim comes back as it was given.
    After the expiry time [decode_token] raises 401. *)
Theorem X1_access_token_round_trip (data : gmap string Claim) (d t : Z) :
  d ≠ 0 ->
  (t <= now + d ->
   exists payload,
     decode_token settings t (create_access_token settings now data (Some d))
     = inr payload
     /\ payload !! "exp" = Some (CTime (now + d))
     /\ payload !! "iat" = Some (CTime now)
     /\ payload !! "type" = Some (CStr "access")
     /\ forall key, key ≠ "exp" -> key ≠ "iat" -> key ≠ "type" ->
          payload !! key = data !! key)
  /\ (now + d < t ->
      decode_token settings t (create_access_token settings now data (Some d))
      = inl (HTTPException HTTP_401_UNAUTHORIZED "Token invalide ou expiré")).
Proof.
  intros Hd. rewrite decode_access_token_at by done. split; intros Ht.
  - destruct (Z.leb_spec t (now + d)); [|lia]. eexists. split; [done|].
    split; [by apply access_token_exp|].
    split; [|split; [apply access_token_type|intros; by apply access_token_claims]].
    unfold create_access_token, jwt_encode. cbn.
    rewrite lookup_insert_ne by done. apply lookup_insert_eq.
  - by destruct (Z.leb_spec t (now + d)); [lia|].
Qed.

(** X2. A lifetime of zero counts as no lifetime: [create_access_token]
    then uses the configured minutes and [create_refresh_token] the configured
    days, exactly as when the argument is [None]. *)
Theorem X2_zero_lifetime_is_the_default (data : gmap string Claim) :
  create_access_token settings now data (Some 0)
  = create_access_token settings now data None
  /\ jwt_claims (create_access_token settings now data (Some 0)) !! "exp"
     = Some (CTime (now + ACCESS_TOKEN_EXPIRE_MINUTES settings * 60))
  /\ create_refresh_token settings now data (Some 0)
     = create_refresh_token settings now data None
  /\ jwt_claims (create_refresh_token settings now data (Some 0)) !! "exp"
     = Some (CTime (now + REFRESH_TOKEN_EXPIRE_DAYS settings * 86400)).
Proof.
  repeat split; unfold create_access_token, create_refresh_token, jwt_encode; cbn;
    rewrite lookup_insert_ne by done; rewrite lookup_insert_ne by done;
    apply lookup_insert_eq.
Qed.

Variable int : Claim -> Result Z.

(** X3. [get_current_user_id] never accepts a refresh token: at any time
    it answers 401, for the type if the token still decodes. An access token
    within its lifetime gives [int] of its subject, and 401 if the claims
    hold no subject. *)
Theorem X3_only_access_tokens_identify_a_user (data : gmap string Claim)
    (delta : option Z) (d t : Z) :
  d ≠ 0 -> t <= now + d ->
  (exists detail,
     get_current_user_id int settings t (create_refresh_token settings now data delta)
     = inl (HTTPException HTTP_401_UNAUTHORIZED detail))
  /\ (forall sub, data !! "sub" = Some sub ->
        get_current_user_id int settings t
          (create_access_token settings now data (Some d)) = int sub)
  /\ (data !! "sub" = None ->
        get_current_user_id int settings t
          (create_access_token settings now data (Some d))
        = inl (HTTPException HTTP_401_UNAUTHORIZED
                 "Token invalide: utilisateur non trouvé")).
Proof.
  intros Hd Ht. split; [|split].
  - unfold get_current_user_id.
    destruct (decode_token_cases t (create_refresh_token settings now data delta))
      as [-> | ->]; [|by eexists].
    cbn [Py.bind]. rewrite refresh_token_type. by eexists.
  - intros sub Hsub. unfold get_current_user_id.
    rewrite decode_access_token_at by done.
    destruct (Z.leb_spec t (now + d)); [|lia]. cbn [Py.bind].
    rewrite access_token_type.
    rewrite bool_decide_eq_false_2 by (intros Hne; by apply Hne).
    by rewrite access_token_claims, Hsub.
  - intros Hsub. unfold get_current_user_id.
    rewrite decode_access_token_at by done.
    destruct (Z.leb_spec t (now + d)); [|lia]. cbn [Py.bind].
    rewrite access_token_type.
    rewrite bool_decide_eq_false_2 by (intros Hne; by apply Hne).
    by rewrite access_token_claims, Hsub.
Qed.

End MoreTokens.

Lemma X1_access_token_round_trip_witness :
  (1500 <= 1000 + 1800 ->
   exists payload,
     Security.decode_token Fixtures.settings 1500
       (Security.create_access_token Fixtures.settings 1000 Fixtures.login_claims (Some 1800))
     = inr payload
     /\ payload !! "exp" = Some (Security.CTime (1000 + 1800))
     /\ payload !! "iat" = Some (Security.CTime 1000)
     /\ payload !! "type" = Some (Security.CStr "access")
     /\ forall key, key ≠ "exp" -> key ≠ "iat" -> key ≠ "type" ->
          payload !! key = Fixtures.login_claims !! key)
  /\ (1000 + 1800 < 1500 ->
      Security.decode_token Fixtures.settings 1500
        (Security.create_access_token Fixtures.settings 1000 Fixtures.login_claims (Some 1800))
      = inl (HTTPException HTTP_401_UNAUTHORIZED "Token invalide ou expiré")).
Proof.
  apply (X1_access_token_round_trip Fixtures.settings 1000 Fixtures.login_claims 1800 1500).
  lia.
Defined.

Lemma X3_only_access_tokens_identify_a_user_witness :
  (exists detail,
     CurrentUser.get_current_user_id Fixtures.int Fixtures.settings 1500
       (Security.create_refresh_token Fixtures.settings 1000 Fixtures.login_claims None)
     = inl (HTTPException HTTP_401_UNAUTHORIZED detail))
  /\ CurrentUser.get_current_user_id Fixtures.int Fixtures.settings 1500
       (Security.create_access_token Fixtures.settings 1000 Fixtures.login_claims
          (Some 1800))
     = inr 42.
Proof.
  destruct (X3_only_access_tokens_identify_a_user Fixtures.settings 1000 Fixtures.int
              Fixtures.login_claims None 1800 1500 ltac:(lia) ltac:(lia))
    as (Hrefresh & Haccess & _).
  split; [exact Hrefresh|].
  exact (Haccess (Security.CStr "42") eq_refl).
Defined.

(** ** Role guards *)

Section Guards.
Import CurrentUser.

(** X4. The chain of [get_current_user] and a role checker returns a
    user exactly when the id is that of an active user whose role is allowed,
    and then returns that user; an unknown id gives 404, and a disabled
    account or a role outside the list gives 403, whatever the role of the
    disabled account. *)
Theorem X4_role_guard_is_sound_and_complete (users : gmap Z User.t)
    (allowed_roles : list string) (user_id : Z) :
  (forall u,
     Py.bind (get_current_user users user_id) (RoleChecker allowed_roles) = inr u
     <-> users !! user_id = Some u /\ User.is_active u = true
         /\ UserRole.value (User.role u) ∈ allowed_roles)
  /\ (users !! user_id = None ->
      exists detail,
        Py.bind (get_current_user users user_id) (RoleChecker allowed_roles)
        = inl (HTTPException HTTP_404_NOT_FOUND detail))
  /\ (forall u, users !! user_id = Some u ->
      User.is_active u = false \/ UserRole.value (User.role u) ∉ allowed_roles ->
      exists detail,
        Py.bind (get_current_user users user_id) (RoleChecker allowed_roles)
        = inl (HTTPException HTTP_403_FORBIDDEN detail)).
Proof.
  unfold get_current_user, RoleChecker. split; [|split].
  - intros u. destruct (users !! user_id) as [user|]; cbn;
      [|split; [done|by intros [? _]]].
    destruct (User.is_active user) eqn:Hactive; cbn.
    + case_bool_decide as Hrole; cbn.
      * split; [done|]. intros ([= <-] & _ & Hin). by destruct Hrole.
      * split; [by intros [= <-]|].
        by intros ([= <-] & _).
    + split; [done|]. intros ([= <-] & Hu & _). congruence.
  - intros ->. by eexists.
  - intros u -> Hbad. destruct (User.is_active u) eqn:Hactive; cbn; [|by eexists].
    destruct Hbad as [?|Hrole]; [done|].
    rewrite bool_decide_eq_true_2 by done. by eexists.
Qed.

(** X5. The role guards of [api/dependencies.py] and the pre-configured
    checkers of [core/security.py] let the same users through: the admin guard
    passes exactly the admins, the staff guard exactly admins and managers,
    and all four answer 403 otherwise. *)
Theorem X5_the_two_families_of_guards_agree (u : User.t) :
  (User.role u = UserRole.ADMIN ->
   require_admin u = inr u /\ Dependencies.require_admin u = inr u)
  /\ (User.role u ≠ UserRole.ADMIN ->
      exists d1 d2,
        require_admin u = inl (HTTPException HTTP_403_FORBIDDEN d1)
        /\ Dependencies.require_admin u = inl (HTTPException HTTP_403_FORBIDDEN d2))
  /\ (User.role u ≠ UserRole.CUSTOMER ->
      require_admin_or_manager u = inr u
      /\ Dependencies.require_admin_or_manager u = inr u)
  /\ (User.role u = UserRole.CUSTOMER ->
      exists d1 d2,
        require_admin_or_manager u = inl (HTTPException HTTP_403_FORBIDDEN d1)
        /\ Dependencies.require_admin_or_manager u
           = inl (HTTPException HTTP_403_FORBIDDEN d2)).
Proof.
  unfold require_admin, require_admin_or_manager, RoleChecker,
    Dependencies.require_admin, Dependencies.require_admin_or_manager.
  destruct (User.role u); repeat split; try done; intros _; by eexists _, _.
Qed.

End Guards.

Lemma X4_role_guard_is_sound_and_complete_witness :
  exists detail,
    Py.bind (CurrentUser.get_current_user Fixtures.users 2)
            (CurrentUser.RoleChecker ["admin"])
    = inl (HTTPException HTTP_403_FORBIDDEN detail).
Proof.
  destruct (X4_role_guard_is_sound_and_complete Fixtures.users ["admin"] 2)
    as (_ & _ & Hforbidden).
  apply (Hforbidden Fixtures.disabled_admin eq_refl). left. reflexivity.
Defined.

Lemma X5_the_two_families_of_guards_agree_witness :
  CurrentUser.require_admin Fixtures.admin = inr Fixtures.admin
  /\ Dependencies.require_admin Fixtures.admin = inr Fixtures.admin.
Proof.
  destruct (X5_the_two_families_of_guards_agree Fixtures.admin) as (Hadmin & _).
  apply Hadmin. reflexivity.
Defined.

(** ** Masking an email address *)

Section Mask.
Import SecurityUtil.

Lemma contains_at_cons (c : ascii) (s : string) :
  contains (String c s) "@" = Ascii.eqb c "@"%char || contains s "@".
Proof.
  cbn [contains String.prefix].
  destruct (Ascii.ascii_dec "@" c) as [<-|Hne]; [by destruct s|].
  by destruct (Ascii.eqb_spec c "@"%char) as [->|_].
Qed.

Lemma contains_at_app (s1 s2 : string) :
  contains (s1 +:+ "@" +:+ s2) "@" = true.
Proof.
  induction s1 as [|c s1 IH].
  - change (EmptyString +:+ "@" +:+ s2) with (String "@"%char s2).
    by rewrite contains_at_cons.
  - change (String c s1 +:+ "@" +:+ s2) with (String c (s1 +:+ "@" +:+ s2)).
    rewrite contains_at_cons, IH. apply orb_true_r.
Qed.

Lemma split_at_no_at (s : string) :
  contains s "@" = false -> split_at s = (s, []).
Proof.
  induction s as [|c s IH]; [done|].
  rewrite contains_at_cons, orb_false_iff. intros [Hc Hs].
  cbn [split_at]. by rewrite IH, Hc.
Qed.

Lemma split_at_app (s1 s2 : string) :
  contains s1 "@" = false ->
  split_at (s1 +:+ "@" +:+ s2) = (s1, split s2).
Proof.
  induction s1 as [|c s1 IH].
  - intros _. change (EmptyString +:+ "@" +:+ s2) with (String "@"%char s2).
    cbn [split_at]. unfold split. by destruct (split_at s2).
  - rewrite contains_at_cons, orb_false_iff. intros [Hc Hs].
    change (String c s1 +:+ "@" +:+ s2) with (String c (s1 +:+ "@" +:+ s2)).
    cbn [split_at]. by rewrite IH, Hc.
Qed.


(** X7. [mask_email] returns a string without [@] as it is, raises
    [IndexError] when the [@] comes first, and raises [ValueError] when the
    address has two or more [@]. *)
Theorem X7_mask_email_edges (a b c : string) :
  contains a "@" = false -> contains b "@" = false ->
  mask_email a = inr a
  /\ mask_email ("@" +:+ b) = inl IndexError
  /\ mask_email (a +:+ "@" +:+ b +:+ "@" +:+ c) = inl ValueError.
Proof.
  intros Ha Hb. split; [|split].
  - unfold mask_email. by rewrite Ha.
  - unfold mask_email. change ("@" +:+ b) with (EmptyString +:+ "@" +:+ b).
    rewrite (contains_at_app EmptyString b). cbn [negb]. unfold split at 1.
    rewrite (split_at_app EmptyString b) by done.
    unfold split. by rewrite split_at_no_at.
  - unfold mask_email. rewrite contains_at_app. cbn [negb]. unfold split at 1.
    rewrite split_at_app by done. unfold split at 1.
    rewrite split_at_app by done. unfold split. by destruct (split_at c).
Qed.

End Mask.


Lemma X7_mask_email_edges_witness :
  SecurityUtil.mask_email "nobody" = inr "nobody"
  /\ SecurityUtil.mask_email "@example.com" = inl SecurityUtil.IndexError
  /\ SecurityUtil.mask_email "a@b@c" = inl SecurityUtil.ValueError.
Proof.
  apply (X7_mask_email_edges "nobody" "example.com" "c"); reflexivity.
Defined.

(** ** Pagination *)

Section Pagination.
Import Dependencies.

(** X8. For a page size of at least 1 and a non-negative total,
    [get_total_pages] is the least number of pages that hold all the items,
    and the response of [create_paginated_response] says [has_next] exactly
    when items remain after the window of the page and [has_prev] exactly
    when the window does not start at the first item. *)
Theorem X8_pages_cover_the_items (self : PaginationParams) (total : Z) :
  1 <= page_size self -> 1 <= page self -> 0 <= total ->
  total <= get_total_pages self total * page_size self
  /\ (get_total_pages self total - 1) * page_size self < total + (if total =? 0 then 1 else 0)
  /\ (forall A (items : list A),
        total_pages (create_paginated_response items total (page self) (page_size self))
        = get_total_pages self total
        /\ (has_next (create_paginated_response items total (page self) (page_size self))
            = true <-> skip self + limit self < total)
        /\ (has_prev (create_paginated_response items total (page self) (page_size self))
            = true <-> 0 < skip self)).
Proof.
  intros Hsize Hpage Htotal. unfold get_total_pages, skip, limit.
  pose proof (Z.div_mod (total + page_size self - 1) (page_size self)) as Hdiv.
  pose proof (Z.mod_pos_bound (total + page_size self - 1) (page_size self)) as Hmod.
  set (n := (total + page_size self - 1) / page_size self) in *.
  set (r := (total + page_size self - 1) mod page_size self) in *.
  assert (total <= n * page_size self) as Hup by nia.
  assert ((n - 1) * page_size self < total + (if total =? 0 then 1 else 0)) as Hlow
    by (destruct (Z.eqb_spec total 0); nia).
  split; [done|]. split; [done|]. intros A items. cbn. fold n.
  split; [done|]. rewrite !Z.ltb_lt. split; [|nia].
  destruct (Z.eqb_spec total 0); nia.
Qed.

End Pagination.

Lemma X8_pages_cover_the_items_witness :
  45 <= Dependencies.get_total_pages Fixtures.second_page 45
        * Dependencies.page_size Fixtures.second_page
  /\ Dependencies.get_total_pages Fixtures.second_page 45 = 3.
Proof.
  destruct (X8_pages_cover_the_items Fixtures.second_page 45
              ltac:(cbn; lia) ltac:(cbn; lia) ltac:(lia)) as (Hcover & _).
  split; [exact Hcover|reflexivity].
Defined.

(** ** Stock, continued *)

Section MoreStock.
Import Db ProductRepository.

Lemma set_stock_set_stock (a b : Z) (p : Product.t) :
  Product.set_stock a (Product.set_stock b p) = Product.set_stock a p.
Proof. done. Qed.

Lemma set_stock_same (p : Product.t) : Product.set_stock (Product.stock p) p = p.
Proof. by destruct p. Qed.

(** X9. On an existing product with a non-negative stock, adding a quantity
    with [increase_stock] and taking the same quantity off with
    [decrease_stock] gives the product table back. The other way round it does
    not in general: the floor of [decrease_stock] is not undone, and the stock
    ends at the larger of the old stock and the quantity. *)
Theorem X9_increase_then_decrease_restores (db : Db.t) (pid q : Z) (p : Product.t) :
  products db !! pid = Some p -> 0 <= Product.stock p ->
  (exists r db1 db2,
     increase_stock pid q db = (inr r, db1)
     /\ decrease_stock pid q db1 = (inr (Some p), db2)
     /\ products db2 = products db)
  /\ (exists r db1 db2 p',
     decrease_stock pid q db = (inr r, db1)
     /\ increase_stock pid q db1 = (inr (Some p'), db2)
     /\ products db2 !! pid = Some p'
     /\ Product.stock p' = Z.max (Product.stock p) q).
Proof.
  intros Hp Hstock. split.
  - eexists _, _, _. split; [by apply increase_stock_run|].
    erewrite decrease_stock_run; [|cbn; by rewrite lookup_alter_eq, Hp].
    cbn. replace (Z.max 0 (Product.stock p + q - q)) with (Product.stock p) by lia.
    rewrite set_stock_set_stock, set_stock_same. split; [done|].
    cbn. apply map_eq. intros i. destruct (decide (i = pid)) as [->|Hne].
    + rewrite !lookup_alter_eq, Hp. by destruct p.
    + by rewrite !lookup_alter_ne.
  - eexists _, _, _, _. split; [by apply decrease_stock_run|].
    erewrite increase_stock_run; [|cbn; by rewrite lookup_alter_eq, Hp].
    split; [done|]. cbn. rewrite !lookup_alter_eq, Hp. cbn. split; [done|]. lia.
Qed.


End MoreStock.

Lemma X9_increase_then_decrease_restores_witness :
  exists r db1 db2,
    ProductRepository.increase_stock 7 5 Sample.db = (inr r, db1)
    /\ ProductRepository.decrease_stock 7 5 db1 = (inr (Some Sample.lamp), db2)
    /\ Db.products db2 = Db.products Sample.db.
Proof.
  destruct (X9_increase_then_decrease_restores Sample.db 7 5 Sample.lamp eq_refl
              ltac:(cbn; lia)) as (Hthere & _).
  exact Hthere.
Defined.


(** ** Cart lines, continued *)

Section MoreCartLines.
Import Db CartItemRepository CartExtra.

Lemma Forall_filter_keep {A} (P Q : A -> Prop) `{!forall x, Decision (Q x)} (l : list A) :
  Forall P l -> Forall P (filter Q l).
Proof.
  rewrite !Forall_forall. intros Hall x Hx.
  apply list_elem_of_filter in Hx as [_ Hx]. by apply Hall.
Qed.

Lemma fold_left_Zadd (l : list Z) (a : Z) :
  fold_left Z.add l a = a + fold_left Z.add l 0.
Proof.
  revert a. induction l as [|x l IH]; intros a; cbn [fold_left]; [lia|].
  rewrite (IH (a + x)), (IH (0 + x)). lia.
Qed.

Lemma quantity_sum_upd (l : list CartItem.t) (x : CartItem.t) (q : Z) :
  NoDup (CartItem.id <$> l) -> x ∈ l ->
  fold_left Z.add (map CartItem.quantity
                     (upd (CartItem.id x) (CartItem.quantity x + q) <$> l)) 0
  = fold_left Z.add (map CartItem.quantity l) 0 + q.
Proof.
  induction l as [|i l IH]; [by intros _ ?%elem_of_nil|].
  rewrite fmap_cons, NoDup_cons. intros [Hnot Hnodup] Hx.
  rewrite fmap_cons. cbn [map fold_left].
  rewrite (fold_left_Zadd _ (0 + _)), (fold_left_Zadd _ (0 + CartItem.quantity i)).
  apply elem_of_cons in Hx as [->|Hx].
  - rewrite upd_hit, fmap_upd_miss by done. cbn. lia.
  - rewrite IH by done. unfold upd at 1. rewrite decide_False; [lia|].
    intros Heq. apply Hnot. rewrite Heq. by apply list_elem_of_fmap_2.
Qed.

Lemma get_items_count_run (db : Db.t) (cart_id : Z) (row : Cart.t) :
  filter (fun c => Cart.id c = cart_id) (carts db) = [row] ->
  get_items_count cart_id db
  = (inr (fold_left Z.add
            (map CartItem.quantity (CartRepository.items_of cart_id db)) 0), db).
Proof.
  intros Hrow.
  assert (Cart.id row = cart_id) as Hid.
  { assert (row ∈ filter (fun c => Cart.id c = cart_id) (carts db)) as Hin
      by (rewrite Hrow; left).
    by apply list_elem_of_filter in Hin as [? _]. }
  unfold get_items_count, get_by_id, bind, query, lift. rewrite Hrow. cbn.
  rewrite Hid. by destruct (CartRepository.items_of cart_id db).
Qed.

(** X11. [clear] never fails: it removes every line of the cart it is
    given and no line of any other cart, keeps the constraints of the table,
    and leaves products and orders alone; the count of the cleared cart, if
    the cart exists, is 0 afterwards. *)
Theorem X11_clear_empties_one_cart (db : Db.t) (cart_id : Z) :
  exists db',
    CartRepository.clear cart_id db = (inr true, db')
    /\ CartRepository.items_of cart_id db' = []
    /\ (forall other, other ≠ cart_id ->
          CartRepository.items_of other db' = CartRepository.items_of other db)
    /\ (primary_key_ok db -> primary_key_ok db')
    /\ (one_line_per_product db -> one_line_per_product db')
    /\ products db' = products db /\ orders db' = orders db
    /\ (forall row,
          filter (fun c => Cart.id c = cart_id) (carts db) = [row] ->
          get_items_count cart_id db' = (inr 0, db')).
Proof.
  eexists. split; [reflexivity|]. cbn.
  assert (filter (fun i => CartItem.cart_id i = cart_id)
            (filter (fun i => CartItem.cart_id i ≠ cart_id) (cart_items db)) = [])
    as Hnone.
  { rewrite list_filter_filter.
    destruct (filter _ (cart_items db)) as [|y ?] eqn:Hf; [done|]. exfalso.
    assert (y ∈ filter (fun i => CartItem.cart_id i = cart_id
                                 /\ CartItem.cart_id i ≠ cart_id) (cart_items db))
      as Hy by (rewrite Hf; left).
    apply list_elem_of_filter in Hy as [[? ?] _]. done. }
  split; [exact Hnone|]. split; [|split; [|split; [|split; [done|split; [done|]]]]].
  - intros other Hne. unfold CartRepository.items_of. cbn.
    rewrite list_filter_filter. apply list_filter_iff. intros i. split.
    + by intros [? _].
    + intros Hi. split; [done|]. congruence.
  - intros [Hnodup Hbelow]. split; cbn.
    + by apply NoDup_fmap_filter.
    + by apply Forall_filter_keep.
  - unfold one_line_per_product. cbn. apply NoDup_fmap_filter.
  - intros row Hrow. rewrite (get_items_count_run _ cart_id row) by done.
    unfold CartRepository.items_of. cbn. by rewrite Hnone.
Qed.

(** X12. [remove_item] answers whether a line had the id; afterwards no
    line has it, every other line is still there, and the constraints of the
    table hold as before. *)
Theorem X12_remove_item_removes_that_line (db : Db.t) (item_id : Z) :
  exists b db',
    remove_item item_id db = (inr b, db')
    /\ (b = true <-> exists x, x ∈ cart_items db /\ CartItem.id x = item_id)
    /\ (forall x, x ∈ cart_items db'
                  <-> x ∈ cart_items db /\ CartItem.id x ≠ item_id)
    /\ (primary_key_ok db -> primary_key_ok db')
    /\ (one_line_per_product db -> one_line_per_product db')
    /\ cart_items_seq db' = cart_items_seq db.
Proof.
  eexists _, _. split; [reflexivity|]. cbn.
  split; [|split; [|split; [|split; [|done]]]].
  - rewrite Z.ltb_lt. split.
    + intros Hpos.
      destruct (filter _ (cart_items db)) as [|x l] eqn:Hf; [cbn in Hpos; lia|].
      assert (x ∈ filter (fun i => CartItem.id i = item_id) (cart_items db)) as Hx
        by (rewrite Hf; left).
      apply list_elem_of_filter in Hx as [? ?]. by exists x.
    + intros (x & Hx & Hid).
      assert (x ∈ filter (fun i => CartItem.id i = item_id) (cart_items db)) as Hin
        by (by apply list_elem_of_filter).
      destruct (filter _ (cart_items db)); [by apply elem_of_nil in Hin|cbn; lia].
  - intros x. rewrite list_elem_of_filter. tauto.
  - intros [Hnodup Hbelow]. split; cbn.
    + by apply NoDup_fmap_filter.
    + by apply Forall_filter_keep.
  - unfold one_line_per_product. cbn. apply NoDup_fmap_filter.
Qed.

(** X13. On a table that satisfies its constraints, the count that
    [get_items_count] gives for an existing cart grows by the added quantity
    with every [add_item] on that cart, whether the call makes a new line or
    raises the quantity of one that is there. *)
Theorem X13_add_item_adds_to_the_count (db : Db.t) (c p q : Z) (price : Q)
    (row : Cart.t) :
  primary_key_ok db -> one_line_per_product db ->
  filter (fun r => Cart.id r = c) (carts db) = [row] ->
  exists n item db',
    get_items_count c db = (inr n, db)
    /\ add_item c p q price db = (inr (Some item), db')
    /\ get_items_count c db' = (inr (n + q), db').
Proof.
  intros Hpk Hone Hrow.
  destruct (add_item_spec db c p q price Hpk Hone)
    as (item & db' & Hrun & Hold & Hnew & _ & _ & _ & _).
  eexists _, item, db'. split; [by apply (get_items_count_run db c row)|].
  split; [done|].
  assert (carts db' = carts db) as Hcarts.
  { destruct (lines_none_or_one c p db Hone) as [[Hlines _]|(x & Hlines & Hx & _)].
    - rewrite (add_item_new db c p q price Hlines) in Hrun. by injection Hrun as _ <-.
    - rewrite (add_item_existing db c p q price x Hpk Hlines Hx) in Hrun.
      by injection Hrun as _ <-. }
  rewrite (get_items_count_run db' c row) by (by rewrite Hcarts).
  f_equal. f_equal. unfold CartRepository.items_of.
  destruct (lines_none_or_one c p db Hone) as [[Hlines _]|(x & Hlines & Hx & Hkey)].
  - destruct (Hnew Hlines) as [-> ->].
    rewrite filter_app, filter_cons, decide_True by done.
    rewrite map_app, fold_left_app. cbn. lia.
  - destruct (Hold x Hlines) as [_ ->]. injection Hkey as Hc _.
    rewrite filter_fmap_upd by (intros i; by rewrite upd_cart_id).
    apply quantity_sum_upd.
    + destruct Hpk as [Hnodup _]. by apply NoDup_fmap_filter.
    + by apply list_elem_of_filter.
Qed.


(** X15. The availability flag of a cart line and the check that
    [create_order_from_cart] makes for it agree: [is_available] is true exactly
    when the check of the line passes, and the checking loop passes a list of
    lines exactly when every one of them is available. *)
Theorem X15_is_available_is_the_order_check (db : Db.t) (lines : list CartItem.t) :
  (forall line,
     is_available db line = true
     <-> OrderService.check_line line db = (inr tt, db))
  /\ (for_each lines OrderService.check_line db = (inr tt, db)
      <-> forall line, line ∈ lines -> is_available db line = true).
Proof.
  assert (forall line,
            is_available db line = true
            <-> OrderService.check_line line db = (inr tt, db)) as Hone.
  { intros line.
    unfold is_available, OrderService.check_line, bind,
      ProductRepository.get_by_id, query.
    destruct (products db !! CartItem.product_id line) as [product|]; cbn; [|done].
    destruct (Product.is_active product); cbn; [|done].
    destruct (Z.ltb_spec (Product.stock product) (CartItem.quantity line)),
      (Z.leb_spec (CartItem.quantity line) (Product.stock product));
      try lia; done. }
  split; [exact Hone|].
  induction lines as [|x lines IH]; cbn [for_each].
  - split; [by intros _ ? ?%elem_of_nil|done].
  - unfold bind.
    destruct (check_line_run db x) as [(_ & detail & Hfail)|[_ Hok]].
    + rewrite Hfail. split; [done|]. intros Hall.
      assert (is_available db x = true) as Hx by (apply Hall; left).
      apply Hone in Hx. congruence.
    + rewrite Hok, IH. split.
      * intros Hall line [->|Hin]%elem_of_cons; [by apply Hone|by apply Hall].
      * intros Hall line Hin. apply Hall. by right.
Qed.

End MoreCartLines.

Lemma X13_add_item_adds_to_the_count_witness :
  exists n item db',
    CartExtra.get_items_count 1 Sample.db = (inr n, Sample.db)
    /\ CartItemRepository.add_item 1 7 3 (12 # 1) Sample.db = (inr (Some item), db')
    /\ CartExtra.get_items_count 1 db' = (inr (n + 3), db').
Proof.
  apply (X13_add_item_adds_to_the_count Sample.db 1 7 3 (12 # 1) Sample.the_cart
           sample_primary_key_ok sample_one_line_per_product).
  reflexivity.
Defined.


(** ** Orders, continued *)

Section MoreOrders.
Import Db OrderService OrderExtra.

Lemma cancel_order_run (db : Db.t) (order_id : Z) (user_id : option Z) (o : Order.t) :
  orders db !! order_id = Some o -> may_access user_id o ->
  Order.can_be_cancelled o = true ->
  exists m,
    cancel_order order_id user_id db
    = (inr (Some (Order.set_status OrderStatus.CANCELLED o)),
       with_orders (alter (Order.set_status OrderStatus.CANCELLED) order_id)
         (orders_seq db) (with_products (fun _ => m) db))
    /\ forall pid,
         m !! pid
         = Product.add_stock (ordered pid (OrderRepository.items_of order_id db))
             <$> products db !! pid.
Proof.
  intros Ho Hacc Hcan.
  destruct (restore_loop (OrderRepository.items_of order_id db) db) as (m & Hloop & Hm).
  exists m. split; [|done].
  unfold cancel_order, bind at 1.
  rewrite (get_order_by_id_run db order_id user_id o Ho Hacc).
  cbn [Order.row Order.items]. rewrite Hcan. cbn [negb].
  unfold bind at 1. rewrite Hloop.
  unfold OrderRepository.update_status, OrderRepository.get_by_id, bind,
    execute, query. cbn. by rewrite lookup_alter_eq, Ho.
Qed.

Lemma cancel_order_refused (db : Db.t) (order_id : Z) (user_id : option Z) (o : Order.t) :
  orders db !! order_id = Some o -> may_access user_id o ->
  Order.can_be_cancelled o = false ->
  cancel_order order_id user_id db
  = (inl (HTTPException HTTP_400_BAD_REQUEST
            "Cette commande ne peut plus être annulée"), db).
Proof.
  intros Ho Hacc Hcan. unfold cancel_order, bind at 1.
  rewrite (get_order_by_id_run db order_id user_id o Ho Hacc).
  cbn [Order.row]. by rewrite Hcan.
Qed.

(** X16. [cancel_order] works once: after it has cancelled a pending or
    paid order, a second call for the same order is refused with 400 and
    leaves the database as the first call left it, so the stock is not
    restored a second time. *)
Theorem X16_an_order_is_cancelled_once (db : Db.t) (order_id : Z)
    (user_id : option Z) (o : Order.t) :
  orders db !! order_id = Some o -> may_access user_id o ->
  Order.status o = OrderStatus.PENDING \/ Order.status o = OrderStatus.PAID ->
  exists cancelled db',
    cancel_order order_id user_id db = (inr (Some cancelled), db')
    /\ Order.can_be_cancelled cancelled = false
    /\ Order.is_paid cancelled = false
    /\ exists detail,
         cancel_order order_id user_id db'
         = (inl (HTTPException HTTP_400_BAD_REQUEST detail), db').
Proof.
  intros Ho Hacc Hstatus. apply can_be_cancelled_iff in Hstatus.
  destruct (cancel_order_run db order_id user_id o Ho Hacc Hstatus) as (m & Hrun & _).
  eexists _, _. split; [exact Hrun|]. split; [done|]. split; [done|].
  eexists. apply (cancel_order_refused _ order_id user_id
                    (Order.set_status OrderStatus.CANCELLED o)); [|done|done].
  cbn. by rewrite lookup_alter_eq, Ho.
Qed.


(** X18. [get_order_by_id] raises 404 for an unknown order and 403 when a
    non-zero user id is not the owner's, both without touching the database;
    it returns the order with its lines to the owner, and also to a caller who
    passes no user id or the id 0, for whom the ownership test is skipped. *)
Theorem X18_get_order_by_id_ownership (db : Db.t) (order_id : Z) :
  (orders db !! order_id = None ->
   forall user_id, exists detail,
     get_order_by_id order_id user_id db
     = (inl (HTTPException HTTP_404_NOT_FOUND detail), db))
  /\ (forall o, orders db !! order_id = Some o ->
      (forall u, u ≠ 0 -> u ≠ Order.user_id o ->
         exists detail,
           get_order_by_id order_id (Some u) db
           = (inl (HTTPException HTTP_403_FORBIDDEN detail), db))
      /\ (forall user_id,
            user_id = None \/ user_id = Some 0 \/ user_id = Some (Order.user_id o) ->
            get_order_by_id order_id user_id db
            = (inr {| Order.id := order_id; Order.row := o;
                      Order.items := OrderRepository.items_of order_id db |}, db))).
Proof.
  split.
  - intros Ho user_id. eexists.
    unfold get_order_by_id, OrderRepository.get_by_id_with_details,
      OrderRepository.get_by_id, bind, query. by rewrite Ho.
  - intros o Ho. split.
    + intros u Hu Hne. eexists.
      unfold get_order_by_id, OrderRepository.get_by_id_with_details,
        OrderRepository.get_by_id, bind, query. rewrite Ho. cbn.
      destruct (Z.eqb_spec u 0); [done|].
      by rewrite bool_decide_eq_true_2 by congruence.
    + intros user_id Hwho. apply get_order_by_id_run; [done|].
      unfold may_access. destruct Hwho as [-> | [-> | ->]]; [done|done|].
      cbn. by destruct (Z.eqb_spec (Order.user_id o) 0).
Qed.

Lemma count_statuses (l : list (Z * Order.t)) :
  length l
  = (length (filter (fun r => Order.status r.2 = OrderStatus.PENDING) l)
     + length (filter (fun r => Order.status r.2 = OrderStatus.PAID) l)
     + length (filter (fun r => Order.status r.2 = OrderStatus.SHIPPED) l)
     + length (filter (fun r => Order.status r.2 = OrderStatus.DELIVERED) l)
     + length (filter (fun r => Order.status r.2 = OrderStatus.CANCELLED) l)
     + length (filter (fun r => Order.status r.2 = OrderStatus.REFUNDED) l))%nat.
Proof.
  induction l as [|r l IH]; [done|].
  rewrite !filter_cons.
  destruct (Order.status r.2); repeat case_decide; try done; cbn [length]; lia.
Qed.

(** X19. The report of [get_order_statistics] has the total and the counts
    of pending, paid, shipped, delivered and cancelled orders, and no entry
    for refunded ones: its total is the sum of its five counts plus the number
    of refunded orders. *)
Theorem X19_statistics_leave_refunded_out (db : Db.t) :
  exists total pending paid shipped delivered cancelled refunded,
    get_order_statistics db
    = (inr [("total", total); ("pending", pending); ("paid", paid);
            ("shipped", shipped); ("delivered", delivered);
            ("cancelled", cancelled)], db)
    /\ count_by_status OrderStatus.REFUNDED db = (inr refunded, db)
    /\ total = pending + paid + shipped + delivered + cancelled + refunded
    /\ total = Z.of_nat (size (orders db))
    /\ 0 <= refunded.
Proof.
  eexists _, _, _, _, _, _, _. split; [reflexivity|]. split; [reflexivity|].
  split; [|split; [by rewrite length_map_to_list|lia]].
  rewrite (count_statuses (map_to_list (orders db))). lia.
Qed.

End MoreOrders.

Lemma X16_an_order_is_cancelled_once_witness :
  exists cancelled db',
    OrderService.cancel_order 5 (Some 42) Sample.db = (inr (Some cancelled), db')
    /\ Order.can_be_cancelled cancelled = false
    /\ Order.is_paid cancelled = false
    /\ exists detail,
         OrderService.cancel_order 5 (Some 42) db'
         = (inl (HTTPException HTTP_400_BAD_REQUEST detail), db').
Proof.
  apply (X16_an_order_is_cancelled_once Sample.db 5 (Some 42) Sample.paid_order).
  - reflexivity.
  - reflexivity.
  - right. reflexivity.
Defined.

(** ** Checkout *)

Section Checkout.
Import Db OrderService OrderExtra CartExtra.

Lemma checks_pass (db : Db.t) (items : list CartItem.t) :
  (forall line, line ∈ items -> ~ unavailable db line) ->
  for_each items check_line db = (inr tt, db).
Proof.
  induction items as [|x items IH]; intros Hall; [done|].
  cbn [for_each]. unfold bind.
  destruct (check_line_run db x) as [(Hun & _)|[_ ->]].
  - exfalso. apply (Hall x); [left|done].
  - apply IH. intros line Hin. apply Hall. by right.
Qed.

Lemma cart_products_distinct (rows : list CartItem.t) (c : Z) :
  NoDup (CartItemRepository.key <$> rows) ->
  NoDup (CartItem.product_id <$> filter (fun i => CartItem.cart_id i = c) rows).
Proof.
  induction rows as [|i rows IH]; [intros _; apply NoDup_nil_2|].
  rewrite fmap_cons, NoDup_cons. intros [Hnot Hnodup].
  rewrite filter_cons. destruct (decide (CartItem.cart_id i = c)) as [Hc|Hc];
    [|by apply IH].
  rewrite fmap_cons, NoDup_cons. split; [|by apply IH].
  intros (y & Hy & Hin)%list_elem_of_fmap.
  apply list_elem_of_filter in Hin as [Hyc Hin].
  apply Hnot. apply list_elem_of_fmap. exists y. split; [|done].
  unfold CartItemRepository.key. congruence.
Qed.

Lemma quantity_of_absent (pid : Z) (items : list CartItem.t) :
  pid ∉ CartItem.product_id <$> items -> quantity_of pid items = 0.
Proof.
  induction items as [|i items IH]; [done|].
  rewrite fmap_cons, not_elem_of_cons. intros [Hne Hnot]. cbn.
  rewrite decide_False by done. rewrite IH by done. lia.
Qed.

Lemma quantity_of_unique (line : CartItem.t) (items : list CartItem.t) :
  NoDup (CartItem.product_id <$> items) -> line ∈ items ->
  quantity_of (CartItem.product_id line) items = CartItem.quantity line.
Proof.
  induction items as [|i items IH]; [by intros _ ?%elem_of_nil|].
  rewrite fmap_cons, NoDup_cons. intros [Hnot Hnodup] Hin. cbn.
  apply elem_of_cons in Hin as [->|Hin].
  - rewrite decide_True by done. rewrite quantity_of_absent by done. lia.
  - rewrite decide_False; [rewrite IH by done; lia|].
    intros Heq. apply Hnot. rewrite Heq. by apply list_elem_of_fmap_2.
Qed.

(** The stock-decreasing loop of [create_order_from_cart], on lines for
    distinct products that are all available. *)
Lemma decrease_loop (items : list CartItem.t) :
  forall db : Db.t,
  NoDup (CartItem.product_id <$> items) ->
  (forall line, line ∈ items -> ~ unavailable db line) ->
  exists m,
    for_each items (fun cart_item =>
      run ProductRepository.decrease_stock
            (CartItem.product_id cart_item) (CartItem.quantity cart_item) in
      ret tt) db
    = (inr tt, with_products (fun _ => m) db)
    /\ forall pid,
         m !! pid
         = Product.add_stock (- quantity_of pid items) <$> products db !! pid.
Proof.
  induction items as [|line items IH]; intros db Hnodup Hall.
  - exists (products db). split; [by destruct db|].
    intros pid. cbn. destruct (products db !! pid); cbn; [|done].
    by rewrite add_stock_zero.
  - rewrite fmap_cons, NoDup_cons in Hnodup. destruct Hnodup as [Hnot Hnodup].
    assert (~ unavailable db line) as Hline by (apply Hall; left).
    unfold unavailable in Hline.
    destruct (products db !! CartItem.product_id line) as [p|] eqn:Hp; [|done].
    assert (CartItem.quantity line <= Product.stock p) as Hstock by lia.
    cbn [for_each]. unfold bind at 1 2.
    rewrite (decrease_stock_run db _ _ p Hp). unfold ret at 1. cbv beta iota.
    replace (Z.max 0 (Product.stock p - CartItem.quantity line))
      with (Product.stock p - CartItem.quantity line) by lia.
    destruct (IH (with_products
                    (alter (Product.set_stock
                              (Product.stock p - CartItem.quantity line))
                           (CartItem.product_id line)) db) Hnodup)
      as (m & -> & Hm).
    { intros other Hin. unfold unavailable. cbn.
      rewrite lookup_alter_ne.
      - by apply Hall; right.
      - intros Heq. apply Hnot. rewrite Heq. by apply list_elem_of_fmap_2. }
    exists m. split; [done|]. intros pid. rewrite Hm. cbn.
    destruct (decide (CartItem.product_id line = pid)) as [<-|Hne].
    + rewrite lookup_alter_eq, Hp. cbn.
      rewrite quantity_of_absent by done.
      unfold Product.add_stock, Product.set_stock. cbn. do 2 f_equal. lia.
    + rewrite lookup_alter_ne by done. by rewrite Z.add_0_l.
Qed.

(** The run of a checkout without a coupon whose lines are all
    available. *)
Lemma checkout_run (db : Db.t) (now user_id : Z) (order_data : OrderFromCart)
    (row : Cart.t) :
  filter (fun c => Cart.user_id c = user_id) (carts db) = [row] ->
  CartRepository.items_of (Cart.id row) db ≠ [] ->
  (forall line, line ∈ CartRepository.items_of (Cart.id row) db ->
                ~ unavailable db line) ->
  CartItemRepository.one_line_per_product db ->
  coupon_code_truthy (coupon_code order_data) = None ->
  let items := CartRepository.items_of (Cart.id row) db in
  let new_row :=
    {| Order.user_id := user_id; Order.status := OrderStatus.PENDING;
       Order.total_amount := Cart.subtotal {| Cart.row := row; Cart.items := items |};
       Order.billing_address_id := Some (billing_address_id order_data);
       Order.shipping_address_id := Some (shipping_address_id order_data) |} in
  exists m db',
    create_order_from_cart now user_id order_data db
    = (inr (Some {| Order.id := orders_seq db; Order.row := new_row;
                    Order.items := OrderRepository.items_of (orders_seq db) db' |}),
       db')
    /\ db'
       = with_cart_items (filter (fun i => CartItem.cart_id i ≠ Cart.id row))
           (cart_items_seq db)
           (with_products (fun _ => m)
              (with_order_items
                 (fun rows => rows ++ order_lines (orders_seq db)
                                        (order_items_seq db) items)%list
                 (order_items_seq db + Z.of_nat (length items))
                 (with_orders (insert (orders_seq db) new_row)
                    (orders_seq db + 1) db)))
    /\ forall pid,
         m !! pid
         = Product.add_stock (- quantity_of pid items) <$> products db !! pid.
Proof.
  intros Hrow Hitems Hall Hone Hcoupon items new_row.
  destruct (decrease_loop items
              (with_order_items
                 (fun rows => rows ++ order_lines (orders_seq db)
                                        (order_items_seq db) items)%list
                 (order_items_seq db + Z.of_nat (length items))
                 (with_orders (insert (orders_seq db) new_row)
                    (orders_seq db + 1) db)))
    as (m & Hloop & Hm).
  { by apply cart_products_distinct. }
  { exact Hall. }
  eexists m, _. split; [|split; [reflexivity|exact Hm]].
  unfold create_order_from_cart, bind at 1.
  rewrite (get_by_user_id_run db user_id row Hrow).
  fold items.
  assert (Cart.is_empty {| Cart.row := row; Cart.items := items |} = false) as ->.
  { unfold Cart.is_empty. cbn [Cart.items]. subst items.
    by destruct (CartRepository.items_of (Cart.id row) db). }
  cbn [Cart.items Cart.row]. unfold bind at 1. rewrite (checks_pass db items Hall).
  unfold bind at 1. unfold apply_coupon. rewrite Hcoupon. cbn [ret].
  unfold bind at 1.
  unfold OrderRepository.create, bind at 1, query.
  unfold bind at 1, execute. cbn [ret Order.id].
  unfold bind at 1. unfold OrderItemRepository.bulk_create_items, bind at 1, query.
  unfold bind at 1, execute. cbn [ret order_items_seq with_orders].
  rewrite length_map. fold (order_lines (orders_seq db) (order_items_seq db) items).
  unfold bind at 1. fold new_row. rewrite Hloop.
  unfold bind at 1, CartRepository.clear, bind at 1, execute. cbn [ret].
  unfold OrderRepository.get_by_id_with_details, OrderRepository.get_by_id,
    bind, query. cbn. by rewrite lookup_insert_eq.
Qed.

(** X20. A user without a cart, or with a cart that has no lines, cannot
    check out: [create_order_from_cart] raises 400 with the empty-cart message
    and leaves the database as it is. *)
Theorem X20_empty_cart_is_refused (db : Db.t) (now user_id : Z)
    (order_data : OrderFromCart) :
  filter (fun c => Cart.user_id c = user_id) (carts db) = []
  \/ (exists row, filter (fun c => Cart.user_id c = user_id) (carts db) = [row]
                  /\ CartRepository.items_of (Cart.id row) db = []) ->
  create_order_from_cart now user_id order_data db
  = (inl (HTTPException HTTP_400_BAD_REQUEST "Le panier est vide"), db).
Proof.
  intros [Hnone|(row & Hrow & Hitems)].
  - unfold create_order_from_cart, bind at 1, CartRepository.get_by_user_id,
      bind, query, lift. by rewrite Hnone.
  - unfold create_order_from_cart, bind at 1.
    rewrite (get_by_user_id_run db user_id row Hrow).
    unfold Cart.is_empty. cbn [Cart.items]. by rewrite Hitems.
Qed.

(** X21. A checkout without a coupon, from the one cart of a user whose
    lines are all available, on a table with one line per product, succeeds.
    The order gets the next id, status pending and the cart's subtotal as its
    total; its items copy product, quantity and captured price of the cart
    lines; every line's product loses exactly the line's quantity and keeps a
    non-negative stock; the cart is left without lines and no other cart
    changes. *)
Theorem X21_checkout_moves_the_cart_into_an_order (db : Db.t) (now user_id : Z)
    (order_data : OrderFromCart) (row : Cart.t) :
  filter (fun c => Cart.user_id c = user_id) (carts db) = [row] ->
  CartRepository.items_of (Cart.id row) db ≠ [] ->
  (forall line, line ∈ CartRepository.items_of (Cart.id row) db ->
                ~ unavailable db line) ->
  CartItemRepository.one_line_per_product db ->
  coupon_code_truthy (coupon_code order_data) = None ->
  exists order db',
    create_order_from_cart now user_id order_data db = (inr (Some order), db')
    /\ Order.id order = orders_seq db
    /\ Order.user_id (Order.row order) = user_id
    /\ Order.status (Order.row order) = OrderStatus.PENDING
    /\ Order.total_amount (Order.row order)
       = Cart.subtotal {| Cart.row := row;
                          Cart.items := CartRepository.items_of (Cart.id row) db |}
    /\ orders db' !! orders_seq db = Some (Order.row order)
    /\ order_items db'
       = (order_items db
          ++ order_lines (orders_seq db) (order_items_seq db)
               (CartRepository.items_of (Cart.id row) db))%list
    /\ (forall line p,
          line ∈ CartRepository.items_of (Cart.id row) db ->
          products db !! CartItem.product_id line = Some p ->
          exists p',
            products db' !! CartItem.product_id line = Some p'
            /\ Product.stock p' = Product.stock p - CartItem.quantity line
            /\ 0 <= Product.stock p')
    /\ (forall pid,
          pid ∉ CartItem.product_id <$> CartRepository.items_of (Cart.id row) db ->
          products db' !! pid = products db !! pid)
    /\ CartRepository.items_of (Cart.id row) db' = []
    /\ (forall other, other ≠ Cart.id row ->
          CartRepository.items_of other db' = CartRepository.items_of other db).
Proof.
  intros Hrow Hitems Hall Hone Hcoupon.
  destruct (checkout_run db now user_id order_data row Hrow Hitems Hall Hone Hcoupon)
    as (m & db' & Hrun & -> & Hm).
  eexists _, _. split; [exact Hrun|]. cbn.
  assert (NoDup (CartItem.product_id
                   <$> CartRepository.items_of (Cart.id row) db)) as Hnodup
    by (by apply cart_products_distinct).
  repeat split.
  - by rewrite lookup_insert_eq.
  - intros line p Hline Hp. eexists. split; [by rewrite Hm, Hp|]. cbn.
    rewrite (quantity_of_unique line _ Hnodup Hline).
    specialize (Hall line Hline). unfold unavailable in Hall. rewrite Hp in Hall.
    lia.
  - intros pid Hpid. rewrite Hm, (quantity_of_absent pid _ Hpid).
    destruct (products db !! pid); cbn; [|done]. by rewrite add_stock_zero.
  - unfold CartRepository.items_of. cbn. rewrite list_filter_filter.
    destruct (filter _ (cart_items db)) as [|y ?] eqn:Hf; [done|]. exfalso.
    assert (y ∈ filter (fun i => CartItem.cart_id i = Cart.id row
                                 /\ CartItem.cart_id i ≠ Cart.id row) (cart_items db))
      as Hy by (rewrite Hf; left).
    apply list_elem_of_filter in Hy as [[? ?] _]. done.
  - intros other Hne. unfold CartRepository.items_of. cbn.
    rewrite list_filter_filter. apply list_filter_iff. intros i. split.
    + by intros [? _].
    + intros Hi. split; [done|]. congruence.
Qed.

Lemma order_lines_order_id (order_id next_id : Z) (items : list CartItem.t) :
  filter (fun i => OrderItem.order_id i = order_id)
         (order_lines order_id next_id items)
  = order_lines order_id next_id items.
Proof.
  unfold order_lines. revert next_id.
  induction items as [|x items IH]; intros next_id; [done|].
  cbn [map OrderItemRepository.number_items].
  rewrite filter_cons, decide_True by done. by rewrite IH.
Qed.

Lemma ordered_order_lines (pid order_id next_id : Z) (items : list CartItem.t) :
  ordered pid (order_lines order_id next_id items) = quantity_of pid items.
Proof.
  unfold order_lines. revert next_id.
  induction items as [|x items IH]; intros next_id; [done|].
  cbn. by rewrite IH.
Qed.


End Checkout.

Lemma stocked_lines_available (line : CartItem.t) :
  line ∈ CartRepository.items_of 1 Fixtures.stocked ->
  ~ OrderService.unavailable Fixtures.stocked line.
Proof.
  intros Hline.
  assert (line = Sample.lamp_line \/ line = Sample.desk_line) as [-> | ->].
  { change (line ∈ [Sample.lamp_line; Sample.desk_line]) in Hline.
    rewrite !elem_of_cons in Hline. destruct Hline as [?|[?|H]]; auto.
    by apply elem_of_nil in H. }
  - vm_compute. by intros [|?].
  - vm_compute. by intros [|?].
Qed.

Lemma stocked_one_line_per_product :
  CartItemRepository.one_line_per_product Fixtures.stocked.
Proof. exact sample_one_line_per_product. Qed.

Lemma X20_empty_cart_is_refused_witness :
  OrderService.create_order_from_cart 1000 42 Sample.checkout Fixtures.emptied
  = (inl (Py.HTTPException Py.HTTP_400_BAD_REQUEST "Le panier est vide"),
     Fixtures.emptied).
Proof.
  apply (X20_empty_cart_is_refused Fixtures.emptied 1000 42 Sample.checkout).
  right. exists Sample.the_cart. split; reflexivity.
Defined.

Lemma X21_checkout_moves_the_cart_into_an_order_witness :
  exists order db',
    OrderService.create_order_from_cart 1000 42 Sample.checkout Fixtures.stocked
    = (inr (Some order), db')
    /\ Order.id order = 7
    /\ Db.products db' !! 8
       = Some {| Product.name := "desk"; Product.stock := 3;
                 Product.is_active := true |}.
Proof.
  destruct (X21_checkout_moves_the_cart_into_an_order
              Fixtures.stocked 1000 42 Sample.checkout Sample.the_cart)
    as (order & db' & Hrun & Hid & _).
  - reflexivity.
  - discriminate.
  - exact stocked_lines_available.
  - exact stocked_one_line_per_product.
  - reflexivity.
  - exists order, db'. split; [exact Hrun|]. split; [exact Hid|].
    vm_compute in Hrun. injection Hrun as _ <-. reflexivity.
Defined.


(** ** The depth of a category and its chain of ancestors *)

Section Chain.
Import Category CategoryChain.
Variable categories : gmap Z Category.t.
Hypothesis Hclosed : closed categories.

Lemma ancestors_length (n : nat) :
  forall cur : Category.t,
    length (ancestors n categories cur)
    = Nat.min n (length (ancestors (S n) categories cur)).
Proof.
  induction n as [|n IH]; intros cur; [done|].
  cbn [ancestors]. destruct (parent_id cur) as [pid|]; [|done].
  destruct (categories !! pid) as [parent|]; [|done].
  rewrite !length_app. cbn [length]. rewrite (IH parent).
  cbn [ancestors]. lia.
Qed.

Lemma level_loop_ancestors (m : nat) :
  forall (level : Z) (cur : Category.t) (id : Z) (fuel : nat),
    categories !! id = Some cur ->
    level = 10 - Z.of_nat m -> (m < fuel)%nat ->
    level_loop fuel categories level (Some cur)
    = Some (inr (level + Z.of_nat (length (ancestors (S m) categories cur)))).
Proof.
  induction m as [|m IH]; intros level cur id [|fuel] Hcur Hlevel Hfuel; try lia.
  - cbn [level_loop ancestors]. destruct (parent_id cur) as [pid|] eqn:Hparent.
    + destruct (Hclosed id cur pid Hcur Hparent) as [parent Hpid]. rewrite Hpid.
      destruct (Z.ltb_spec 10 (level + 1)); [|lia]. cbn [length app].
      do 2 f_equal; lia.
    + cbn [length]. do 2 f_equal; lia.
  - cbn [level_loop]. change (ancestors (S (S m)) categories cur)
      with (match parent_id cur with
            | None => []
            | Some pid =>
                match categories !! pid with
                | None => []
                | Some parent => (ancestors (S m) categories parent ++ [parent])%list
                end
            end).
    destruct (parent_id cur) as [pid|] eqn:Hparent.
    + destruct (Hclosed id cur pid Hcur Hparent) as [parent Hpid]. rewrite Hpid.
      destruct (Z.ltb_spec 10 (level + 1)); [lia|].
      rewrite (IH (level + 1) parent pid fuel Hpid) by lia.
      rewrite length_app. cbn [length]. do 2 f_equal; lia.
    + cbn [length]. do 2 f_equal; lia.
Qed.

Lemma full_path_loop_ancestors (m : nat) :
  forall (path : list string) (cur : Category.t) (id : Z) (fuel : nat),
    categories !! id = Some cur ->
    (length path + m = 10)%nat -> (m < fuel)%nat ->
    full_path_loop fuel categories path cur
    = Some (inr ((name <$> ancestors (S m) categories cur) ++ path)%list).
Proof.
  induction m as [|m IH]; intros path cur id [|fuel] Hcur Hlen Hfuel; try lia.
  - cbn [full_path_loop ancestors]. destruct (parent_id cur) as [pid|] eqn:Hparent.
    + destruct (Hclosed id cur pid Hcur Hparent) as [parent Hpid]. rewrite Hpid.
      destruct (Z.ltb_spec 10 (Z.of_nat (length (name parent :: path))));
        [done|cbn [length] in *; lia].
    + done.
  - cbn [full_path_loop]. change (ancestors (S (S m)) categories cur)
      with (match parent_id cur with
            | None => []
            | Some pid =>
                match categories !! pid with
                | None => []
                | Some parent => (ancestors (S m) categories parent ++ [parent])%list
                end
            end).
    destruct (parent_id cur) as [pid|] eqn:Hparent.
    + destruct (Hclosed id cur pid Hcur Hparent) as [parent Hpid]. rewrite Hpid.
      destruct (Z.ltb_spec 10 (Z.of_nat (length (name parent :: path))));
        [cbn [length] in *; lia|].
      rewrite (IH (name parent :: path) parent pid fuel Hpid)
        by (cbn [length]; lia).
      rewrite fmap_app, <- app_assoc. done.
    + done.
Qed.


End Chain.

Lemma tree_closed : Category.closed Fixtures.tree.
Proof.
  intros id c pid Hc Hp. apply elem_of_map_to_list in Hc.
  set (l := map_to_list Fixtures.tree) in Hc. vm_compute in l. subst l.
  rewrite !elem_of_cons in Hc.
  destruct Hc as [Hc|[Hc|[Hc|Hc]]]; [..|by apply elem_of_nil in Hc];
    injection Hc as -> ->; try discriminate; injection Hp as <-; by eexists.
Qed.


(** ** Validation of a coupon for an order *)

Section Coupons.
Import Db Coupon CouponService.
Variable validate_code : string -> M (bool * option Coupon.t * option string).
Variable str : Q -> string.


(** X25. [validate_coupon] raises only what the repository raises, or an
    [AttributeError] when the repository accepts a code without giving a
    coupon; it refuses, without raising, an accepted coupon whose minimum the
    amount does not reach. *)
Theorem X25_validate_coupon_raises_only_for_the_repository (now : Z)
    (code : string) (order_amount : Q) (db db' : Db.t) (e : Exception) :
  validate_coupon validate_code str now code order_amount db = (inl e, db') ->
  validate_code code db = (inl e, db')
  \/ (exists error, validate_code code db = (inr (true, None, error), db')
                    /\ e = AttributeError "min_order_amount").
Proof.
  intros Hrun. unfold validate_coupon, bind in Hrun.
  destruct (validate_code code db) as [[e'|[[ok c] err]] db1] eqn:Hrepo.
  - left. by injection Hrun as <- <-.
  - destruct ok; cbn [negb] in Hrun; [|done].
    destruct c as [c|].
    + by destruct (below_minimum c order_amount).
    + right. exists err. by injection Hrun as <- <-.
Qed.

End Coupons.


Lemma X25_validate_coupon_raises_only_for_the_repository_witness :
  CouponService.validate_coupon Fixtures.careless Fixtures.str 1000 "NOEL2024"
    (50 # 1) Sample.db
  = (inl (Py.AttributeError "min_order_amount"), Sample.db)
  /\ (Fixtures.careless "NOEL2024" Sample.db
      = (inl (Py.AttributeError "min_order_amount"), Sample.db)
      \/ exists error,
           Fixtures.careless "NOEL2024" Sample.db
           = (inr (true, None, error), Sample.db)
           /\ Py.AttributeError "min_order_amount"
              = Py.AttributeError "min_order_amount").
Proof.
  split; [reflexivity|].
  apply (X25_validate_coupon_raises_only_for_the_repository
           Fixtures.careless Fixtures.str 1000 "NOEL2024" (50 # 1)
           Sample.db Sample.db).
  reflexivity.
Defined.

Lemma X11_clear_empties_one_cart_witness :
  exists db',
    CartRepository.clear 1 Sample.db = (inr true, db')
    /\ CartRepository.items_of 1 db' = []
    /\ CartExtra.get_items_count 1 db' = (inr 0, db').
Proof.
  destruct (X11_clear_empties_one_cart Sample.db 1)
    as (db' & Hrun & Hnone & _ & _ & _ & _ & _ & Hcount).
  exists db'. split; [exact Hrun|]. split; [exact Hnone|].
  apply (Hcount Sample.the_cart). reflexivity.
Defined.

Lemma X12_remove_item_removes_that_line_witness :
  exists db',
    CartExtra.remove_item 2 Sample.db = (inr true, db')
    /\ CartItemRepository.primary_key_ok db'
    /\ CartItemRepository.one_line_per_product db'.
Proof.
  destruct (X12_remove_item_removes_that_line Sample.db 2)
    as (b & db' & Hrun & _ & _ & Hkey & Hone & _).
  exists db'. split.
  - vm_compute in Hrun. injection Hrun as <- <-. reflexivity.
  - split; [apply Hkey, sample_primary_key_ok|apply Hone, sample_one_line_per_product].
Defined.


Lemma X18_get_order_by_id_ownership_witness :
  (exists detail,
     OrderService.get_order_by_id 5 (Some 43) Sample.db
     = (inl (Py.HTTPException Py.HTTP_403_FORBIDDEN detail), Sample.db))
  /\ OrderService.get_order_by_id 5 (Some 0) Sample.db
     = (inr {| Order.id := 5; Order.row := Sample.paid_order;
               Order.items := OrderRepository.items_of 5 Sample.db |}, Sample.db).
Proof.
  destruct (X18_get_order_by_id_ownership Sample.db 5) as [_ Hknown].
  destruct (Hknown Sample.paid_order eq_refl) as [Hother Howner].
  split.
  - apply (Hother 43); [lia|]. cbn. lia.
  - apply Howner. right. by left.
Defined.
